(** * ADNI dataset loader: [recognition/vision_transformer_47147571/dataset.py]

    A shallow embedding of [ADNIDataset] and [split_dataset], and the
    properties of the loader's specification settled against it.

    Layout: Part I holds the definitions (Python values and exceptions,
    binary64 arithmetic, the [random] module, the OpenCV calls, the
    filesystem, then the two source units); Part II the lemmas and
    theorems. *)

From Stdlib Require Import ZArith Ascii String Floats.SpecFloat.
From stdpp Require Import gmap strings list.

Local Open Scope Z_scope.

(* ===================================================================== *)
(** * Part I. Definitions                                                  *)
(* ===================================================================== *)

(** ** Python values *)

Module Py.

(** The exceptions the interpreter and the libraries can raise on the
    paths of [dataset.py]. *)
Inductive exception : Set :=
| IndexError            (* list index out of range *)
| ValueError            (* int(nan) *)
| OverflowError         (* int(inf), float(int) too large *)
| FileNotFoundError     (* os.listdir, Image.open on a missing path *)
| NotADirectoryError    (* os.listdir on a regular file *)
| IsADirectoryError     (* Image.open on a directory *)
| FileExistsError       (* os.makedirs on an existing path *)
| UnidentifiedImageError (* Image.open on bytes that are no image *)
| cv2_error.            (* any failed assertion inside OpenCV *)

Inductive result (A : Type) : Type :=
| Ok (a : A)
| Raise (e : exception).
Arguments Ok {A} a.
Arguments Raise {A} e.

Definition is_ok {A} (r : result A) : bool :=
  match r with Ok _ => true | Raise _ => false end.

(** [l[:k]] and [l[k:]] take any integer: a negative bound counts from
    the end, and both are clamped to [0..len(l)]. *)
Definition slice_bound (k : Z) (len : nat) : nat :=
  if k <? 0 then Z.to_nat (Z.max 0 (k + Z.of_nat len))
  else Z.to_nat (Z.min k (Z.of_nat len)).

Definition slice_to {A} (l : list A) (k : Z) : list A :=
  take (slice_bound k (length l)) l.

Definition slice_from {A} (l : list A) (k : Z) : list A :=
  drop (slice_bound k (length l)) l.

(** [l[start:stop]] for two non-negative bounds. *)
Definition slice {A} (l : list A) (start stop : nat) : list A :=
  take (stop - start) (drop start l).

(** [a[y0:y1, x0:x1]] for a 2-D array, again for non-negative bounds. *)
Definition slice2 {A} (a : list (list A)) (y0 y1 x0 x1 : nat) : list (list A) :=
  (fun row => slice row x0 x1) <$> slice a y0 y1.

(** [l[idx]]: indices [-len(l) .. -1] address the list from its end;
    anything outside [-len(l) .. len(l)-1] raises [IndexError]. *)
Definition getitem {A} (l : list A) (idx : Z) : result A :=
  let i := if idx <? 0 then idx + Z.of_nat (length l) else idx in
  if i <? 0 then Raise IndexError
  else match l !! Z.to_nat i with
       | Some a => Ok a
       | None => Raise IndexError
       end.

(** [list(range(n))]. *)
Definition range (n : nat) : list nat := seq 0 n.

(** [x[i], x[j] = x[j], x[i]]: the right-hand side is read first, then
    [x[i]] and [x[j]] are stored in that order; an index outside the
    list raises [IndexError] at the read. *)
Definition swap {A} (x : list A) (i j : nat) : result (list A) :=
  match x !! j, x !! i with
  | Some xj, Some xi => Ok (<[j := xi]> (<[i := xj]> x))
  | _, _ => Raise IndexError
  end.

End Py.

Export Py.

(** ** binary64 arithmetic

    Python's [float] and NumPy's [float64] are IEEE-754 binary64; the
    operations are those of the Standard Library's executable
    specification, at precision 53 and maximal exponent 1024. *)

Module Float64.

Definition prec : Z := 53.
Definition emax : Z := 1024.

Definition float : Set := spec_float.

(** [float(n)] for a Python [int]: rounded to nearest-even, and
    [OverflowError] when the integer is beyond the largest double. *)
Definition of_int (n : Z) : result float :=
  match binary_normalize prec emax n 0 false with
  | S754_infinity _ => Raise OverflowError
  | f => Ok f
  end.

Definition mul (x y : float) : float := SFmul prec emax x y.

(** [m * 2^e] for a literal the source or a caller writes. *)
Definition of_bits (m e : Z) : float := binary_normalize prec emax m e false.

(** The floor of the finite double [(-1)^s * m * 2^e]: a shift of the
    signed mantissa, to the left for [0 <= e] and an arithmetic one to
    the right otherwise. *)
Definition floor_value (s : bool) (m : positive) (e : Z) : Z :=
  Z.shiftl (cond_Zopp s (Z.pos m)) e.

(** [int(np.floor(x))].  [np.floor] of a finite double is the integral
    double of value [floor x], which is exact, and [int] of an integral
    double is that integer; NaN and the infinities pass through
    [np.floor], and [int] raises [ValueError] and [OverflowError] on
    them. *)
Definition floor_int (x : float) : result Z :=
  match x with
  | S754_zero _ => Ok 0
  | S754_finite s m e => Ok (floor_value s m e)
  | S754_infinity _ => Raise OverflowError
  | S754_nan => Raise ValueError
  end.

Definition is_finite (x : float) : bool :=
  match x with
  | S754_zero _ | S754_finite _ _ _ => true
  | _ => false
  end.

(** [0 <= x <= 1], for any representation [m * 2^e] of a finite [x]. *)
Definition in_unit_interval (x : float) : bool :=
  match x with
  | S754_zero _ => true
  | S754_finite false m e => (e <=? 0) && (Z.pos m <=? 2 ^ (- e))
  | _ => false
  end.

(** What [j] right shifts of [M] have produced in the rounding of the
    Standard Library: the quotient, and two flags that are both clear
    exactly when nothing was shifted out. *)
Definition shr_inv (M j : Z) (mrs : shr_record) : Prop :=
  0 <= shr_m mrs /\ shr_m mrs = M / 2 ^ j /\
  (shr_r mrs = false /\ shr_s mrs = false <-> M = shr_m mrs * 2 ^ j).

End Float64.

(** ** The [random] module

    The module-level functions act on one hidden generator; its state is
    threaded explicitly.  The Mersenne Twister itself is left abstract:
    [random_seed] is the state [random.seed(a)] installs, [randbelow] is
    [Random._randbelow]. *)

Class Random (G : Type) : Type := {
  random_seed : Z -> G;
  randbelow : nat -> G -> nat * G
}.

(** [_randbelow(n)] returns an integer in [range(n)]. *)
Class RandomSpec (G : Type) `{Random G} : Prop :=
  randbelow_lt : forall (n : nat) (g : G), (0 < n)%nat -> (fst (randbelow n g) < n)%nat.

Section Shuffle.
Context {G : Type} `{Random G} {A : Type}.

(** [for i in reversed(range(1, len(x))): j = randbelow(i + 1);
     x[i], x[j] = x[j], x[i]], with [i] counting down from its
    argument. *)
Fixpoint shuffle_from (i : nat) (x : list A) (g : G) : result (list A) * G :=
  match i with
  | O => (Ok x, g)
  | S i' =>
      let '(j, g') := randbelow (i + 1) g in
      match swap x i j with
      | Raise e => (Raise e, g')
      | Ok x' => shuffle_from i' x' g'
      end
  end.

(** [random.shuffle(x)]: the list is shuffled in place; here the
    shuffled list is returned. *)
Definition shuffle (x : list A) (g : G) : result (list A) * G :=
  shuffle_from (length x - 1) x g.

End Shuffle.

(** A linear congruential generator, used to run the definitions on
    concrete inputs. *)
Module LCG.

Definition next (g : Z) : Z := (g * 1103515245 + 12345) mod 2147483648.

#[export] Instance lcg_random : Random Z := {
  random_seed a := Z.abs a;
  randbelow n g := (Z.to_nat (next g / 65536) mod n, next g)%nat
}.

End LCG.

(** ** Strings and paths *)

Module Str.

Definition lower_ascii (c : ascii) : ascii :=
  let n := nat_of_ascii c in
  if ((65 <=? n) && (n <=? 90))%nat then ascii_of_nat (n + 32) else c.

(** [s.lower()], on the ASCII letters; the bytes of any other character
    are above 127 and cannot take part in one of the three suffixes. *)
Fixpoint lower (s : string) : string :=
  match s with
  | EmptyString => EmptyString
  | String c s' => String (lower_ascii c) (lower s')
  end.

(** [s.endswith(suffixes)] for a tuple of suffixes. *)
Definition endswith (s : string) (suffixes : list string) : bool :=
  existsb (fun suf => bool_decide (list_ascii_of_string suf `suffix_of` list_ascii_of_string s))
          suffixes.

End Str.

(** A path is the list of its components, outermost first;
    [os.path.join(p, name)] appends one component. *)
Abbreviation path := (list string).

Definition join (p : path) (name : string) : path := p ++ [name].

Definition dirname (p : path) : path := take (length p - 1) p.

(** ** Images and the OpenCV calls *)

(** A decoded grayscale image: rows of 8-bit pixels. *)
Abbreviation image := (list (list Z)).

Definition height (img : image) : nat := length img.
Definition width (img : image) : nat := length (List.hd [] img).

(** An array with a zero dimension ([Mat::empty]). *)
Definition empty (img : image) : bool :=
  ((height img =? 0) || (width img =? 0))%nat.

(** [img[r, c]], when the position is inside the image. *)
Definition pixel (img : image) (r c : nat) : option Z :=
  img !! r ≫= fun row => row !! c.

(** Every row has the width of the array, as in any [ndarray]. *)
Definition rectangular (img : image) : Prop :=
  Forall (fun row => length row = width img) img.

(** What OpenCV computes numerically is left abstract: the threshold
    Otsu's method selects for an image, and the value cubic interpolation
    gives the destination pixel at a row and column of a [w x h]
    destination. *)
Class Cv2 : Type := {
  otsu : image -> Z;
  cubic : image -> nat -> nat -> nat -> nat -> Z
}.

Module cv2.
Section Calls.
Context `{Cv2}.

(** [cv2.threshold(src, 0, 255, THRESH_BINARY + THRESH_OTSU)]: the
    threshold argument is replaced by Otsu's, and a pixel above it
    becomes 255, any other 0.  Returns the threshold and the mask. *)
Definition threshold (src : image) : Z * image :=
  let t := otsu src in
  (t, map (map (fun p : Z => if t <? p then 255 else 0)) src).

(** The foreground of an image: the pixels above its Otsu threshold. *)
Definition is_foreground (img : image) (r c : nat) : bool :=
  match pixel img r c with
  | Some p => otsu img <? p
  | None => false
  end.

(** [(x, y, w, h)] is the minimal upright box around the foreground: it
    holds every foreground pixel, and each of its four sides does hold
    one. *)
Definition bounding_box (img : image) (x y w h : nat) : Prop :=
  (forall r c : nat, is_foreground img r c = true ->
     (y <= r < y + h)%nat /\ (x <= c < x + w)%nat) /\
  (exists r, is_foreground img r x = true) /\
  (exists r, is_foreground img r (x + w - 1) = true) /\
  (exists c, is_foreground img y c = true) /\
  (exists c, is_foreground img (y + h - 1) c = true).

(** The columns of the nonzero pixels of one row. *)
Definition nonzero_columns (row : list Z) : list nat :=
  mjoin (imap (fun (x : nat) (p : Z) => if p =? 0 then [] else [x]) row).

(** [cv2.findNonZero]: the [(x, y)] of every nonzero pixel, row by row,
    and [None] when there is none. *)
Definition findNonZero (src : image) : option (list (nat * nat)) :=
  match mjoin (imap (fun (y : nat) row => (fun x => (x, y)) <$> nonzero_columns row) src) with
  | [] => None
  | pts => Some pts
  end.

Definition minimum (l : list nat) : nat := foldr Nat.min (List.hd 0%nat l) l.
Definition maximum (l : list nat) : nat := foldr Nat.max 0%nat l.

(** [cv2.boundingRect]: [(x, y, w, h)] of the smallest upright rectangle
    holding every point.  [None] reaches OpenCV as an empty array, whose
    rectangle is [(0, 0, 0, 0)]. *)
Definition boundingRect (coords : option (list (nat * nat))) : nat * nat * nat * nat :=
  match coords with
  | None => (0, 0, 0, 0)%nat
  | Some pts =>
      let xs := pts.*1 in
      let ys := pts.*2 in
      (minimum xs, minimum ys,
       maximum xs - minimum xs + 1, maximum ys - minimum ys + 1)%nat
  end.

(** [cv2.resize(src, (w, h), interpolation=cv2.INTER_CUBIC)]: fails on
    an empty source ([!ssize.empty()]) or an empty destination size,
    and otherwise fills an [h]-row, [w]-column destination. *)
Definition resize (src : image) (dsize : nat * nat) : result image :=
  let '(w, h) := dsize in
  if empty src || (w =? 0)%nat || (h =? 0)%nat then Raise cv2_error
  else Ok ((fun r => (fun c => cubic src w h r c) <$> seq 0 w) <$> seq 0 h).

End Calls.
End cv2.

(** ** The filesystem

    The state holds the directories and regular files the loader can
    reach.  A directory keeps its listing in the order [os.listdir] yields
    it; a file keeps the grayscale image its bytes decode to, if any, and
    a file that [cv2.imwrite] has written keeps the array it was given.
    For a PNG file that array is what a reader decodes; the JPEG encoder
    is lossy, and a reader of a .jpg or .jpeg file decodes an image of the
    same size that is close to the array. *)

Inductive node : Set :=
| Dir (names : list string)
| File (content : option image).

Abbreviation fs := (gmap path node).

(** Computations on the filesystem that may raise: the state reached so
    far survives an exception. *)
Definition M (A : Type) : Type := fs -> result A * fs.

Definition ret {A} (a : A) : M A := fun s => (Ok a, s).

Definition bind {A B} (m : M A) (k : A -> M B) : M B :=
  fun s =>
    match m s with
    | (Ok a, s') => k a s'
    | (Raise e, s') => (Raise e, s')
    end.

Definition lift {A} (r : result A) : M A := fun s => (r, s).

Notation "'let*' x ':=' m 'in' k" := (bind m (fun x => k))
  (at level 10, x pattern, m at level 100, k at level 200).
Notation "m ';;' k" := (bind m (fun _ => k))
  (at level 100, k at level 200, right associativity).

(** [for x in l: body(x)]. *)
Fixpoint for_each {A} (l : list A) (body : A -> M unit) : M unit :=
  match l with
  | [] => ret tt
  | x :: l' => body x ;; for_each l' body
  end.

(** The order in which [os.listdir] yields the entries of a directory is
    not specified, and filesystems differ in it.  [place names name] is
    the listing of a directory that listed [names] once [name] has been
    created in it; all that is known of it is that it holds the old
    entries and the new one. *)
Class Listing : Type := {
  place : list string -> string -> list string
}.

Class ListingSpec `{Listing} : Prop :=
  place_perm : forall (names : list string) (name : string),
    place names name ≡ₚ names ++ [name].

Module os.
Section Calls.
Context `{Listing}.

(** [os.path.exists]. *)
Definition exists_ (p : path) (s : fs) : bool := bool_decide (is_Some (s !! p)).

(** [os.path.isdir]. *)
Definition isdir (p : path) (s : fs) : bool :=
  match s !! p with
  | Some (Dir _) => true
  | _ => false
  end.

(** Enter the last component of [p] in the listing of its parent, when
    the parent is a directory of the state and does not list it yet; the
    filesystem decides where in the listing. *)
Definition link (p : path) (s : fs) : fs :=
  match last p, s !! dirname p with
  | Some name, Some (Dir names) =>
      if bool_decide (name ∈ names) then s
      else <[dirname p := Dir (place names name)]> s
  | _, _ => s
  end.

(** [os.makedirs(p)] for a path whose parent is a directory:
    [FileExistsError] when the path exists, else an empty directory,
    entered in the listing of the parent.  (The real call also creates a
    missing parent, and raises [NotADirectoryError] where the parent is a
    regular file.) *)
Definition makedirs (p : path) : M unit :=
  fun s =>
    if exists_ p s then (Raise FileExistsError, s)
    else (Ok tt, <[p := Dir []]> (link p s)).

(** [os.listdir(p)]. *)
Definition listdir (p : path) : M (list string) :=
  fun s =>
    match s !! p with
    | Some (Dir names) => (Ok names, s)
    | Some (File _) => (Raise NotADirectoryError, s)
    | None => (Raise FileNotFoundError, s)
    end.

End Calls.
End os.

(** What a run that works on the output directory [out] may do to the
    state: nothing disappears, and only [out], its entries and the listing
    of its parent change. *)
Definition touched (out p : path) : Prop :=
  p = dirname out \/ p = out \/ exists f, p = join out f.

Definition keeps (s s' : fs) : Prop :=
  forall p, is_Some (s !! p) -> is_Some (s' !! p).

Definition step (out : path) (s s' : fs) : Prop :=
  keeps s s' /\
  (forall p, ~ touched out p -> s' !! p = s !! p).

Module cv2_io.
Section Calls.
Context `{Listing}.

(** [cv2.imread(p, cv2.IMREAD_GRAYSCALE)]: [None], not an exception,
    when the file is missing or cannot be decoded. *)
Definition imread (p : path) : M (option image) :=
  fun s =>
    match s !! p with
    | Some (File (Some img)) => (Ok (Some img), s)
    | _ => (Ok None, s)
    end.

(** [cv2.imwrite(p, img)]: raises on an empty image; returns [False]
    when the file cannot be created (the parent is no directory, or the
    path is a directory), and otherwise stores the image. *)
Definition imwrite (p : path) (img : image) : M bool :=
  fun s =>
    if empty img then (Raise cv2_error, s)
    else match s !! dirname p, s !! p with
         | Some (Dir _), (None | Some (File _)) =>
             (Ok true, <[p := File (Some img)]> (os.link p s))
         | _, _ => (Ok false, s)
         end.

End Calls.
End cv2_io.

Module PIL.

(** [Image.open(p).convert('L')]: the image the file keeps. *)
Definition open_L (p : path) (s : fs) : result image :=
  match s !! p with
  | Some (File (Some img)) => Ok img
  | Some (File None) => Raise UnidentifiedImageError
  | Some (Dir _) => Raise IsADirectoryError
  | None => Raise FileNotFoundError
  end.

End PIL.

(** ** [class ADNIDataset(Dataset)] *)

Module ADNIDataset.
Section Class.
Context `{Cv2} `{Listing}.

Record t : Type := {
  root : path;
  ad_dir : path;
  nc_dir : path;
  ad_processed_dir : path;
  nc_processed_dir : path;
  ad_images : list path;
  nc_images : list path;
  images : list path;
  labels : list Z;
  transform : option (image -> image)
}.

(** [_crop_brain_region(self, image)].  [image] is what [cv2.imread]
    returned; OpenCV rejects [None]. *)
Definition _crop_brain_region : option image -> result image := fun image =>
  match image with
  | None => Raise cv2_error
  | Some image =>
      let '(_, binary) := cv2.threshold image in
      let coords := cv2.findNonZero binary in
      let '(x, y, w, h) := cv2.boundingRect coords in
      Ok (slice2 image y (y + h) x (x + w))
  end.

(** [_process_image(self, input_path, output_path)]. *)
Definition _process_image (input_path output_path : path) : M unit :=
  let* image := cv2_io.imread input_path in
  let* cropped := lift (_crop_brain_region image) in
  let* resized := lift (cv2.resize cropped (210, 210)%nat) in
  let* _ := cv2_io.imwrite output_path resized in
  ret tt.

Definition image_extensions : list string := [".png"; ".jpg"; ".jpeg"]%string.

(** [_process_directory(self, input_dir, output_dir)]. *)
Definition _process_directory (input_dir output_dir : path) : M unit :=
  let* filenames := os.listdir input_dir in
  for_each filenames (fun filename =>
    if Str.endswith (Str.lower filename) image_extensions then
      let input_path := join input_dir filename in
      let output_path := join output_dir filename in
      _process_image input_path output_path
    else ret tt).

(** One guarded block of [preprocess_images]:
    [if not os.path.exists(out): os.makedirs(out);
     self._process_directory(inp, out)]. *)
Definition preprocess_block (inp out : path) : M unit :=
  fun s =>
    if negb (os.exists_ out s) then
      (os.makedirs out ;; _process_directory inp out) s
    else ret tt s.

(** [preprocess_images(self)]: the block for AD, then the block for NC. *)
Definition preprocess_images (self : t) : M unit :=
  preprocess_block (ad_dir self) (ad_processed_dir self) ;;
  preprocess_block (nc_dir self) (nc_processed_dir self).

(** The object as [__init__] has it when it calls [preprocess_images]:
    the five directories are set, nothing else is yet. *)
Definition fresh (root0 : path) (split : string) : t :=
  let root1 := join root0 split in
  {| root := root1;
     ad_dir := join root1 "AD";
     nc_dir := join root1 "NC";
     ad_processed_dir := join root1 "AD_processed";
     nc_processed_dir := join root1 "NC_processed";
     ad_images := []; nc_images := []; images := []; labels := [];
     transform := None |}.

(** The rest of [__init__]: list the two processed directories and set
    [ad_images], [nc_images], [images], [labels] and [transform]. *)
Definition collect (self : t) (transform0 : option (image -> image)) : M t :=
  let* ad_names := os.listdir (ad_processed_dir self) in
  let ad_images1 := join (ad_processed_dir self) <$> ad_names in
  let* nc_names := os.listdir (nc_processed_dir self) in
  let nc_images1 := join (nc_processed_dir self) <$> nc_names in
  ret {| root := root self;
         ad_dir := ad_dir self;
         nc_dir := nc_dir self;
         ad_processed_dir := ad_processed_dir self;
         nc_processed_dir := nc_processed_dir self;
         ad_images := ad_images1;
         nc_images := nc_images1;
         images := ad_images1 ++ nc_images1;
         labels := replicate (length ad_images1) 1 ++ replicate (length nc_images1) 0;
         transform := transform0 |}.

(** [__init__(self, root, split="train", transform=None)]. *)
Definition __init__ (root0 : path) (split : string)
    (transform0 : option (image -> image)) : M t :=
  let self := fresh root0 split in
  preprocess_images self ;;
  collect self transform0.

(** [__len__(self)]. *)
Definition __len__ (self : t) : nat := length (images self).

(** [__getitem__(self, idx)].  It only reads the filesystem. *)
Definition __getitem__ (self : t) (idx : Z) (s : fs) : result (image * Z) :=
  match getitem (images self) idx with
  | Raise e => Raise e
  | Ok img_path =>
      match PIL.open_L img_path s with
      | Raise e => Raise e
      | Ok image =>
          let image := match transform self with
                       | Some f => f image
                       | None => image
                       end in
          match getitem (labels self) idx with
          | Raise e => Raise e
          | Ok label => Ok (image, label)
          end
      end
  end.

End Class.
End ADNIDataset.

(** ** [split_dataset] *)

(** [torch.utils.data.Subset(dataset, indices)]: a view, nothing is
    copied. *)
Record Subset : Type := {
  dataset : ADNIDataset.t;
  indices : list nat
}.

Section Split.
Context {G : Type} `{Random G}.

(** [int(np.floor(split_ratio * dataset_size))]. *)
Definition split_point (split_ratio : Float64.float) (dataset_size : nat) : result Z :=
  match Float64.of_int (Z.of_nat dataset_size) with
  | Raise e => Raise e
  | Ok n => Float64.floor_int (Float64.mul split_ratio n)
  end.

(** [if seed is not None: random.seed(seed)]. *)
Definition seeded (seed : option Z) (g : G) : G :=
  match seed with
  | Some a => random_seed a
  | None => g
  end.

(** [split_dataset(dataset, split_ratio=0.8, seed=None)], from the state
    [g] of the global generator to the result and the state left
    behind. *)
Definition split_dataset (dataset0 : ADNIDataset.t) (split_ratio : Float64.float)
    (seed : option Z) (g : G) : result (Subset * Subset) * G :=
  let g := seeded seed g in
  let dataset_size := ADNIDataset.__len__ dataset0 in
  let indices0 := range dataset_size in
  match split_point split_ratio dataset_size with
  | Raise e => (Raise e, g)
  | Ok split =>
      match shuffle indices0 g with
      | (Raise e, g) => (Raise e, g)
      | (Ok indices1, g) =>
          let train_indices := slice_to indices1 split in
          let val_indices := slice_from indices1 split in
          let train_dataset := {| dataset := dataset0; indices := train_indices |} in
          let val_dataset := {| dataset := dataset0; indices := val_indices |} in
          (Ok (train_dataset, val_dataset), g)
      end
  end.

End Split.

(** The default [split_ratio=0.8]: the double nearest to 0.8. *)
Definition default_split_ratio : Float64.float :=
  Float64.of_bits 7205759403792794 (-53).

(** [Subset.__len__] and [Subset.__getitem__] of [torch.utils.data]:
    [len(self.indices)] and [self.dataset[self.indices[idx]]]. *)
Definition Subset_len (view : Subset) : nat := length (indices view).

Definition Subset_getitem (view : Subset) (idx : Z) (s : fs) : result (image * Z) :=
  match getitem (indices view) idx with
  | Raise e => Raise e
  | Ok i => ADNIDataset.__getitem__ (dataset view) (Z.of_nat i) s
  end.

(** ** Names for parts of the source units

    The test and the body of the loop of [_process_directory], the image
    [_process_image] hands to [cv2.imwrite], and two predicates on
    images. *)

Section Parts.
Context `{Cv2} `{Listing}.

(** [filename.lower().endswith(('.png', '.jpg', '.jpeg'))]. *)
Definition is_image_name (filename : string) : bool :=
  Str.endswith (Str.lower filename) ADNIDataset.image_extensions.

(** The body of [for filename in os.listdir(input_dir)]. *)
Definition process_entry (input_dir output_dir : path) (filename : string) : M unit :=
  if is_image_name filename then
    ADNIDataset._process_image (join input_dir filename) (join output_dir filename)
  else ret tt.

(** [cv2.resize(self._crop_brain_region(image), (210, 210), INTER_CUBIC)]. *)
Definition processed_image (img : image) : result image :=
  match ADNIDataset._crop_brain_region (Some img) with
  | Raise e => Raise e
  | Ok cropped => cv2.resize cropped (210, 210)%nat
  end.

(** A scan [_process_image] can process: an array with some pixel above
    its Otsu threshold. *)
Definition processable (img : image) : Prop :=
  rectangular img /\ exists r c : nat, cv2.is_foreground img r c = true.

(** An [n x n] image. *)
Definition square (n : nat) (img : image) : Prop :=
  height img = n /\ Forall (fun row => length row = n) img.

(** A class that has yet to be preprocessed and will be without failure:
    the parent of the output directory is a directory; the input
    directory lists [names], without repetition; the output directory
    does not exist; and every listed file with an image name decodes to a
    processable scan and has no directory in the way of its output
    file. *)
Definition ready_for (inp out : path) (names : list string) (s : fs) : Prop :=
  os.isdir (dirname out) s = true /\
  s !! inp = Some (Dir names) /\
  NoDup names /\
  os.exists_ out s = false /\
  forall f, f ∈ names -> is_image_name f = true ->
    (exists img, s !! join inp f = Some (File (Some img)) /\ processable img) /\
    os.isdir (join out f) s = false.

End Parts.

(** ** Concrete inputs

    Data on which the definitions above are run: stand-ins for the two
    numeric routines of OpenCV, a few images, directories and datasets. *)

Module Sample.

(** Threshold 0 (what Otsu's method gives an image of one grey level, and
    a threshold that separates a black background from anything else),
    and nearest-neighbour sampling in place of the cubic kernel. *)
Definition nearest : Cv2 := {|
  otsu _ := 0;
  cubic src w h r c :=
    default 0 (pixel src (r * height src / h) (c * width src / w))
|}.

(** Two orders of listing: entries in the order of their creation, and
    the newest entry first. *)
Definition creation_order : Listing := {| place names name := names ++ [name] |}.
Definition newest_first : Listing := {| place names name := name :: names |}.

(** A 4 x 4 scan with a bright region in rows 1-2, columns 1-2. *)
Definition bright : image :=
  [[0; 0; 0; 0]; [0; 5; 9; 0]; [0; 7; 0; 0]; [0; 0; 0; 0]].

(** An all-background scan. *)
Definition black : image := [[0; 0]; [0; 0]].

Definition data : path := ["data"]%string.
Definition train : path := join data "train".
Definition AD : path := join train "AD".
Definition NC : path := join train "NC".
Definition AD_processed : path := join train "AD_processed".
Definition NC_processed : path := join train "NC_processed".

(** Raw scans only: two images and a text file for AD, one image for NC. *)
Definition raw : fs :=
  list_to_map
    [ (train, Dir ["AD"; "NC"]%string);
      (AD, Dir ["a.png"; "notes.txt"; "B.JPG"]%string);
      (join AD "a.png", File (Some bright));
      (join AD "notes.txt", File None);
      (join AD "B.JPG", File (Some [[3]]));
      (NC, Dir ["c.jpeg"]%string);
      (join NC "c.jpeg", File (Some [[1; 2]; [3; 4]])) ].

(** The NC scans are there, the AD directory is missing. *)
Definition no_AD : fs :=
  list_to_map
    [ (train, Dir ["NC"]%string);
      (NC, Dir ["c.jpeg"]%string);
      (join NC "c.jpeg", File (Some [[1; 2]; [3; 4]])) ].

(** The second of three AD scans cannot be decoded. *)
Definition corrupt : fs :=
  list_to_map
    [ (train, Dir ["AD"; "NC"]%string);
      (AD, Dir ["a.png"; "bad.png"; "c.png"]%string);
      (join AD "a.png", File (Some bright));
      (join AD "bad.png", File None);
      (join AD "c.png", File (Some [[3]]));
      (NC, Dir ["c.jpeg"]%string);
      (join NC "c.jpeg", File (Some [[1; 2]; [3; 4]])) ].

(** Both processed directories exist already, with stale content. *)
Definition stale : fs :=
  list_to_map
    [ (train, Dir ["AD"; "NC"; "AD_processed"; "NC_processed"]%string);
      (AD, Dir ["a.png"]%string);
      (join AD "a.png", File (Some bright));
      (NC, Dir []);
      (AD_processed, Dir ["old.png"]%string);
      (join AD_processed "old.png", File None);
      (NC_processed, Dir []) ].

(** The raw scans, with an empty AD_processed directory just created. *)
Definition ready : fs := <[AD_processed := Dir []]> raw.

(** An all-background scan waiting to be processed. *)
Definition dark : fs :=
  list_to_map
    [ (AD, Dir ["z.png"]%string);
      (join AD "z.png", File (Some black));
      (AD_processed, Dir []) ].

(** A processed tree with one sample of each class. *)
Definition processed : fs :=
  list_to_map
    [ (AD_processed, Dir ["a.png"]%string);
      (join AD_processed "a.png", File (Some [[5]]));
      (NC_processed, Dir ["c.png"]%string);
      (join NC_processed "c.png", File (Some [[7]])) ].

(** The dataset [__init__] builds over processed listings [ad] and [nc]. *)
Definition sample_dataset (ad nc : list string) : ADNIDataset.t :=
  {| ADNIDataset.root := train;
     ADNIDataset.ad_dir := AD;
     ADNIDataset.nc_dir := NC;
     ADNIDataset.ad_processed_dir := AD_processed;
     ADNIDataset.nc_processed_dir := NC_processed;
     ADNIDataset.ad_images := join AD_processed <$> ad;
     ADNIDataset.nc_images := join NC_processed <$> nc;
     ADNIDataset.images := (join AD_processed <$> ad) ++ (join NC_processed <$> nc);
     ADNIDataset.labels := replicate (length ad) 1 ++ replicate (length nc) 0;
     ADNIDataset.transform := None |}.

Definition one : ADNIDataset.t := sample_dataset ["a.png"]%string [].
Definition two : ADNIDataset.t := sample_dataset ["a.png"]%string ["c.png"]%string.
Definition five : ADNIDataset.t :=
  sample_dataset ["a.png"; "b.png"; "c.png"]%string ["d.png"; "e.png"]%string.

(** The doubles 2.0 and 0.5. *)
Definition ratio_2 : Float64.float := Float64.of_bits 2 0.
Definition ratio_half : Float64.float := Float64.of_bits 1 (-1).

End Sample.

(* ===================================================================== *)
(** * Part II. Properties                                                  *)
(* ===================================================================== *)

(** A run is the pair of its result and the state it leaves. *)
Lemma run_eq {A S : Type} (x : A * S) (a : A) : fst x = a -> x = (a, snd x).
Proof. destruct x. simpl. by intros ->. Qed.

(** ** Slices *)

Section SliceFacts.
Context {A : Type}.
Implicit Types (l : list A) (k : Z).

Lemma slice_bound_le k (n : nat) : (slice_bound k n <= n)%nat.
Proof. unfold slice_bound. destruct (k <? 0) eqn:E; lia. Qed.

Lemma slice_bound_in_range k (n : nat) :
  0 <= k <= Z.of_nat n -> slice_bound k n = Z.to_nat k.
Proof. unfold slice_bound. intros Hk. destruct (k <? 0) eqn:E; lia. Qed.

Lemma slice_to_from l k : slice_to l k ++ slice_from l k = l.
Proof. apply take_drop. Qed.

Lemma slice_to_length l k : length (slice_to l k) = slice_bound k (length l).
Proof.
  unfold slice_to. rewrite length_take.
  pose proof (slice_bound_le k (length l)). lia.
Qed.

Lemma slice_from_length l k :
  length (slice_from l k) = (length l - slice_bound k (length l))%nat.
Proof. unfold slice_from. by rewrite length_drop. Qed.

Lemma lookup_slice l (start stop i : nat) :
  (i < stop - start)%nat -> slice l start stop !! i = l !! (start + i)%nat.
Proof. intros Hi. unfold slice. by rewrite lookup_take_lt, lookup_drop. Qed.

Lemma length_slice l (start stop : nat) :
  length (slice l start stop) = (Nat.min (stop - start) (length l - start))%nat.
Proof. unfold slice. by rewrite length_take, length_drop. Qed.

End SliceFacts.

(** ** The shuffle is a permutation *)

Section ShuffleFacts.
Context {G : Type} `{RandomSpec G} {A : Type}.
Implicit Types (x : list A) (g : G).

Lemma swap_in_range x (i j : nat) :
  (i < length x)%nat -> (j < length x)%nat ->
  exists x', swap x i j = Ok x' /\ x' ≡ₚ x /\ length x' = length x.
Proof.
  intros Hi Hj. unfold swap.
  destruct (lookup_lt_is_Some_2 x j Hj) as [xj Ej].
  destruct (lookup_lt_is_Some_2 x i Hi) as [xi Ei].
  rewrite Ej, Ei. eexists. split; [done|]. split.
  - by apply Permutation_insert_swap.
  - by rewrite !length_insert.
Qed.

Lemma shuffle_from_S (i : nat) x g :
  shuffle_from (S i) x g =
    match swap x (S i) (fst (randbelow (S i + 1) g)) with
    | Raise e => (Raise e, snd (randbelow (S i + 1) g))
    | Ok x' => shuffle_from i x' (snd (randbelow (S i + 1) g))
    end.
Proof. simpl. by destruct (randbelow _ g). Qed.

(** Every index the loop draws is inside the list, so no swap raises and
    the list stays a permutation of the one it started from. *)
Lemma shuffle_from_perm (i : nat) : forall x g,
  (i < length x)%nat ->
  exists x', fst (shuffle_from i x g) = Ok x' /\ x' ≡ₚ x.
Proof.
  induction i as [|i IH]; intros x g Hi.
  - by exists x.
  - rewrite shuffle_from_S.
    pose proof (randbelow_lt (S i + 1) g ltac:(lia)) as Hj.
    destruct (swap_in_range x (S i) (fst (randbelow (S i + 1) g)))
      as (x1 & -> & Hp & Hl); [lia..|].
    destruct (IH x1 (snd (randbelow (S i + 1) g))) as (x' & Hx' & Hp'); [lia|].
    exists x'. split; [done|]. by rewrite Hp'.
Qed.

Lemma shuffle_perm x g : exists x', fst (shuffle x g) = Ok x' /\ x' ≡ₚ x.
Proof.
  unfold shuffle. destruct x as [|a x]; [by exists []|].
  apply shuffle_from_perm. simpl. lia.
Qed.

End ShuffleFacts.

(** ** Rounding in binary64 *)

Section Rounding.
Import Float64.

Lemma digits2_pos_size (m : positive) : digits2_pos m = Pos.size m.
Proof. induction m; simpl; congruence. Qed.

(** [2^(digits m - 1) <= m]. *)
Lemma digits2_pos_lower (m : positive) : 2 ^ (Z.pos (digits2_pos m) - 1) <= Z.pos m.
Proof.
  rewrite digits2_pos_size.
  pose proof (Pos.size_le m) as Hle.
  assert (2 ^ Z.pos (Pos.size m) <= 2 * Z.pos m) as Hz.
  { change (2 * Z.pos m) with (Z.pos m~0). rewrite <-Pos2Z.inj_pow. by apply Pos2Z.pos_le_pos. }
  replace (Z.pos (Pos.size m)) with (Z.pos (Pos.size m) - 1 + 1) in Hz by lia.
  rewrite Z.pow_add_r in Hz by lia. lia.
Qed.

Lemma digits2_pos_upper (m : positive) (n : Z) :
  0 <= n -> Z.pos m < 2 ^ n -> Z.pos (digits2_pos m) <= n.
Proof.
  intros Hn Hlt. pose proof (digits2_pos_lower m) as Hlow.
  destruct (Z_le_gt_dec (Z.pos (digits2_pos m)) n) as [|Hgt]; [done|].
  assert (2 ^ n <= 2 ^ (Z.pos (digits2_pos m) - 1)) by (apply Z.pow_le_mono_r; lia).
  lia.
Qed.

Lemma shr_1_inv (M j : Z) (mrs : shr_record) :
  0 <= j -> Float64.shr_inv M j mrs -> Float64.shr_inv M (j + 1) (shr_1 mrs).
Proof.
  intros Hj (Hm & Hq & Hex). destruct mrs as [m r s]. simpl in *.
  assert (H2j : 0 < 2 ^ j) by (apply Z.pow_pos_nonneg; lia).
  assert (Hpow : 2 ^ (j + 1) = 2 ^ j * 2) by (rewrite Z.pow_add_r; lia).
  assert (Hlow : m * 2 ^ j <= M).
  { rewrite Hq, Z.mul_comm. apply Z.mul_div_le. lia. }
  assert (Hdiv : M / 2 ^ (j + 1) = m / 2).
  { rewrite Hpow, <-Z.div_div by lia. by rewrite <-Hq. }
  unfold Float64.shr_inv. rewrite Hdiv, Hpow.
  destruct m as [|[p|p|]|p]; simpl; try lia.
  - split; [done|]. split; [done|]. rewrite orb_false_iff. split.
    + intros [_ Hrs]. apply Hex in Hrs. lia.
    + intros HM. split; [done|]. apply Hex. lia.
  - split; [lia|]. split.
    { change (Z.pos p~1) with (2 * Z.pos p + 1).
      rewrite (Z.mul_comm 2), Z.div_add_l by lia. change (1 / 2) with 0. lia. }
    split; [by intros [? _]|]. intros HM. exfalso.
    change (Z.pos p~1) with (2 * Z.pos p + 1) in Hlow. nia.
  - split; [lia|]. split.
    { change (Z.pos p~0) with (2 * Z.pos p).
      by rewrite (Z.mul_comm 2), Z.div_mul by lia. }
    rewrite orb_false_iff. split.
    + intros [_ Hrs]. apply Hex in Hrs.
      change (Z.pos p~0) with (2 * Z.pos p) in Hrs. lia.
    + intros HM. split; [done|]. apply Hex.
      change (Z.pos p~0) with (2 * Z.pos p). lia.
  - split; [done|]. split; [done|]. split; [by intros [? _]|].
    intros HM. exfalso. lia.
Qed.

Lemma iter_pos_shr_inv (p : positive) : forall (M j : Z) (mrs : shr_record),
  0 <= j -> Float64.shr_inv M j mrs ->
  Float64.shr_inv M (j + Z.pos p) (SpecFloat.iter_pos shr_1 p mrs).
Proof.
  induction p as [p IH|p IH|]; intros M j mrs Hj Hinv; simpl.
  - replace (j + Z.pos p~1) with (j + 1 + Z.pos p + Z.pos p) by lia.
    apply IH; [lia|]. apply IH; [lia|]. by apply shr_1_inv.
  - replace (j + Z.pos p~0) with (j + Z.pos p + Z.pos p) by lia.
    apply IH; [lia|]. by apply IH.
  - by apply shr_1_inv.
Qed.

Lemma fexp_le_0 (d : Z) : d <= 53 -> fexp prec emax d <= 0.
Proof. unfold fexp, emin, prec, emax. lia. Qed.

Lemma Zdigits2_le (m e N : Z) :
  0 <= m -> e <= 0 -> N < 2 ^ 53 -> m <= N * 2 ^ (- e) -> Zdigits2 m + e <= 53.
Proof.
  intros Hm He HN Hle. destruct m as [|q|q]; simpl; [lia| |lia].
  assert (0 < 2 ^ (- e)) by (apply Z.pow_pos_nonneg; lia).
  assert (Z.pos q < 2 ^ (53 - e)).
  { replace (53 - e) with (53 + - e) by lia. rewrite Z.pow_add_r by lia. nia. }
  pose proof (digits2_pos_upper q (53 - e)). lia.
Qed.

(** One pass of [shr_fexp] on an exact mantissa below [N * 2^-e]: the
    shifted mantissa, also after rounding to nearest, stays below [N] at
    the new exponent. *)
Lemma shr_fexp_le (m e N : Z) :
  0 <= m -> e <= 0 -> 0 <= N < 2 ^ 53 -> m <= N * 2 ^ (- e) ->
  forall mrs e', shr_fexp prec emax m e loc_Exact = (mrs, e') ->
    e' <= 0 /\ 0 <= shr_m mrs <= N * 2 ^ (- e') /\
    0 <= round_nearest_even (shr_m mrs) (loc_of_shr_record mrs) <= N * 2 ^ (- e').
Proof.
  intros Hm He HN Hle mrs e'. unfold shr_fexp, shr. simpl shr_record_of_loc.
  pose proof (fexp_le_0 _ (Zdigits2_le m e N Hm He (proj2 HN) Hle)) as Hfexp.
  destruct (fexp prec emax (Zdigits2 m + e) - e) as [|p|p] eqn:Ek;
    intros [= <- <-]; simpl; try (split; [lia|]; split; lia).
  assert (Float64.shr_inv m 0 {| shr_m := m; shr_r := false; shr_s := false |}) as Hinv0.
  { split; [done|]. simpl. rewrite Z.div_1_r. split; [done|]. split; [lia|done]. }
  apply (iter_pos_shr_inv p m 0) in Hinv0 as (H0 & Hq & Hex); [|lia].
  simpl in Hq, Hex.
  set (mrs := SpecFloat.iter_pos shr_1 p _) in *.
  assert (Hp : 0 < 2 ^ Z.pos p) by (apply Z.pow_pos_nonneg; lia).
  assert (Hsplit : N * 2 ^ (- e) = N * 2 ^ (- (e + Z.pos p)) * 2 ^ Z.pos p).
  { rewrite <-Z.mul_assoc, <-Z.pow_add_r by lia. f_equal. f_equal. lia. }
  assert (Hlow : shr_m mrs * 2 ^ Z.pos p <= m).
  { rewrite Hq, Z.mul_comm. apply Z.mul_div_le. lia. }
  assert (Hb : shr_m mrs <= N * 2 ^ (- (e + Z.pos p))) by nia.
  split; [lia|]. split; [lia|].
  destruct mrs as [m1 r1 s1]. simpl in *.
  assert (Hup : (r1 = false /\ s1 = false) \/ m1 + 1 <= N * 2 ^ (- (e + Z.pos p))).
  { destruct r1, s1; try (right; assert (m <> m1 * 2 ^ Z.pos p)
      by (intros HM; by apply Hex in HM as [? ?]); nia). by left. }
  destruct Hup as [[-> ->]|Hup]; simpl; [lia|].
  destruct r1, s1; simpl; try destruct (Z.even m1); lia.
Qed.

(** Rounding a positive number that does not exceed the integer
    [N < 2^53] gives a finite double that does not exceed it either. *)
Lemma binary_round_aux_le (mx : positive) (ex N : Z) :
  ex <= 0 -> 0 <= N < 2 ^ 53 -> Z.pos mx <= N * 2 ^ (- ex) ->
  match binary_round_aux prec emax false (Z.pos mx) ex loc_Exact with
  | S754_zero s => s = false
  | S754_finite s m e => s = false /\ e <= 0 /\ Z.pos m <= N * 2 ^ (- e)
  | _ => False
  end.
Proof.
  intros He HN Hle. unfold binary_round_aux.
  destruct (shr_fexp prec emax (Z.pos mx) ex loc_Exact) as [mrs1 e1] eqn:E1.
  destruct (shr_fexp_le (Z.pos mx) ex N ltac:(lia) He HN Hle _ _ E1) as (He1 & _ & Hr1).
  destruct (shr_fexp prec emax (round_nearest_even _ _) e1 loc_Exact)
    as [mrs2 e2] eqn:E2.
  destruct (shr_fexp_le _ _ N (proj1 Hr1) He1 HN (proj2 Hr1) _ _ E2)
    as (He2 & Hm2 & _).
  destruct (shr_m mrs2) as [|m|m]; [done| |lia].
  destruct (Z.leb_spec e2 (emax - prec)) as [_|Hgt]; [split; [done|]; split; lia|].
  unfold emax, prec in Hgt. lia.
Qed.

Lemma pos_iter_xO (d p : positive) : Z.pos (Pos.iter xO p d) = Z.pos p * 2 ^ Z.pos d.
Proof.
  induction d as [|d IH] using Pos.peano_ind.
  - simpl. lia.
  - rewrite Pos.iter_succ, Pos2Z.inj_succ, Z.pow_succ_r by lia.
    change (Z.pos (Pos.iter xO p d)~0) with (2 * Z.pos (Pos.iter xO p d)). lia.
Qed.

(** [float(N)] for [0 <= N < 2^53] is a non-negative finite double that
    does not exceed [N]. *)
Lemma of_int_le (N : Z) :
  0 <= N < 2 ^ 53 ->
  exists n, of_int N = Ok n /\
    match n with
    | S754_zero s => s = false
    | S754_finite s m e => s = false /\ e <= 0 /\ Z.pos m <= N * 2 ^ (- e)
    | _ => False
    end.
Proof.
  intros HN. unfold of_int, binary_normalize.
  destruct N as [|p|p]; [by eexists| |lia].
  unfold binary_round.
  assert (Hfexp : fexp prec emax (Z.pos (digits2_pos p) + 0) <= 0).
  { apply fexp_le_0. pose proof (digits2_pos_upper p 53). lia. }
  destruct (shl_align p 0 _) as [mz ez] eqn:Ealign.
  assert (ez <= 0 /\ Z.pos mz <= Z.pos p * 2 ^ (- ez)) as [Hez Hmz].
  { unfold shl_align in Ealign.
    destruct (fexp prec emax (Z.pos (digits2_pos p) + 0) - 0) as [|d|d] eqn:Ed;
      injection Ealign as <- <-; simpl; try lia.
    split; [lia|]. rewrite pos_iter_xO.
    replace (- fexp prec emax (Z.pos (digits2_pos p) + 0)) with (Z.pos d) by lia. lia. }
  pose proof (binary_round_aux_le mz ez (Z.pos p) Hez HN Hmz) as Hround.
  destruct (binary_round_aux prec emax false (Z.pos mz) ez loc_Exact) as [s|s| |s m e];
    try done; by eexists.
Qed.

(** The product of a double in [[0, 1]] and [float(N)], floored: an
    integer between 0 and [N]. *)
Lemma floor_mul_unit_interval (r : float) (N : Z) :
  Float64.in_unit_interval r = true -> 0 <= N < 2 ^ 53 ->
  exists n k, of_int N = Ok n /\ floor_int (mul r n) = Ok k /\ 0 <= k <= N.
Proof.
  intros Hr HN. destruct (of_int_le N HN) as (n & En & Hn).
  exists n. unfold mul.
  assert (Hfloor : forall x,
    match x with
    | S754_zero s => s = false
    | S754_finite s m e => s = false /\ e <= 0 /\ Z.pos m <= N * 2 ^ (- e)
    | _ => False
    end -> exists k, floor_int x = Ok k /\ 0 <= k <= N).
  { intros [s|s| |s m e] Hx; try done; [exists 0; split; [done|lia]|].
    destruct Hx as (-> & He & Hm). eexists. split; [reflexivity|].
    unfold floor_value. simpl cond_Zopp.
    replace e with (- - e) at 1 2 by lia. rewrite Z.shiftl_opp_r.
    rewrite Z.shiftr_div_pow2 by lia.
    assert (0 < 2 ^ (- e)) by (apply Z.pow_pos_nonneg; lia).
    split; [apply Z.div_pos; lia|].
    apply Z.div_le_upper_bound; lia. }
  destruct r as [sr|sr| |sr mr er]; try done.
  - destruct n as [sn|sn| |sn mn en]; try done; exists 0; (split; [done|]);
      simpl; split; (done || lia).
  - destruct sr; [done|]. simpl in Hr. apply andb_true_iff in Hr as [Her Hmr].
    apply Z.leb_le in Her, Hmr.
    destruct n as [sn|sn| |sn mn en]; try done.
    + exists 0. split; [done|]. simpl. split; [done|lia].
    + destruct Hn as (-> & Hen & Hmn).
      destruct (Hfloor (SFmul prec emax (S754_finite false mr er) (S754_finite false mn en)))
        as (k & Hk & Hrange); [|by exists k].
      simpl. apply binary_round_aux_le; [lia|done|].
      rewrite Pos2Z.inj_mul.
      replace (- (er + en)) with (- er + - en) by lia. rewrite Z.pow_add_r by lia.
      assert (0 < 2 ^ (- er)) by (apply Z.pow_pos_nonneg; lia).
      assert (0 < 2 ^ (- en)) by (apply Z.pow_pos_nonneg; lia). nia.
Qed.

End Rounding.

Lemma split_point_unit_interval (r : Float64.float) (N : nat) :
Float64.in_unit_interval r = true -> Z.of_nat N < 2 ^ 53 ->
exists k, split_point r N = Ok k /\ 0 <= k <= Z.of_nat N.
Proof.
intros Hr HN.
destruct (floor_mul_unit_interval r (Z.of_nat N) Hr ltac:(lia)) as (n & k & En & Ek & Hk).
exists k. unfold split_point. by rewrite En.
Qed.

Lemma lcg_spec : @RandomSpec Z LCG.lcg_random.
Proof. intros n g Hn. simpl. apply Nat.mod_upper_bound. lia. Qed.

(** ** [split_dataset] *)

Section SplitFacts.
Context {G : Type} `{Random G}.
Implicit Types (ds : ADNIDataset.t) (r : Float64.float) (seed : option Z) (g : G).

Lemma split_dataset_raise ds r seed g e :
  split_point r (ADNIDataset.__len__ ds) = Raise e ->
  split_dataset ds r seed g = (Raise e, seeded seed g).
Proof. intros Hk. unfold split_dataset. by rewrite Hk. Qed.

Lemma split_point_raise r (n : nat) e :
  split_point r n = Raise e -> e = ValueError \/ e = OverflowError.
Proof.
  unfold split_point, Float64.of_int, Float64.floor_int.
  destruct (binary_normalize _ _ _ _ _); try destruct (Float64.mul _ _);
    intros [=]; auto.
Qed.

Lemma split_point_ok_iff r (n : nat) :
  is_ok (split_point r n) =
    match Float64.of_int (Z.of_nat n) with
    | Ok x => Float64.is_finite (Float64.mul r x)
    | Raise _ => false
    end.
Proof.
  unfold split_point. destruct (Float64.of_int _); [|done].
  by destruct (Float64.mul r a).
Qed.

Context `{!RandomSpec G}.

Lemma split_dataset_ok ds r seed g k :
  split_point r (ADNIDataset.__len__ ds) = Ok k ->
  exists idx,
    idx ≡ₚ range (ADNIDataset.__len__ ds) /\
    split_dataset ds r seed g =
      (Ok ({| dataset := ds; indices := slice_to idx k |},
           {| dataset := ds; indices := slice_from idx k |}),
       snd (shuffle (range (ADNIDataset.__len__ ds)) (seeded seed g))).
Proof.
  intros Hk.
  destruct (shuffle_perm (range (ADNIDataset.__len__ ds)) (seeded seed g))
    as (idx & Hidx & Hp).
  exists idx. split; [done|].
  unfold split_dataset. rewrite Hk.
  destruct (shuffle _ (seeded seed g)) as [res g']. simpl in *. by subst res.
Qed.

End SplitFacts.

(** ** Bounding rectangles *)

Section MinMax.
Implicit Types (l : list nat).

Lemma foldr_min_le l d : (foldr Nat.min d l <= d)%nat.
Proof. induction l; simpl; lia. Qed.

Lemma foldr_min_lower l d x : x ∈ l -> (foldr Nat.min d l <= x)%nat.
Proof.
  induction l as [|a l IH]; [by intros ?%elem_of_nil|].
  intros [->|Hx]%elem_of_cons; simpl; [lia|]. specialize (IH Hx). lia.
Qed.

Lemma foldr_min_elem l d : foldr Nat.min d l = d \/ foldr Nat.min d l ∈ l.
Proof.
  induction l as [|a l IH]; simpl; [by left|].
  destruct (Nat.min_spec a (foldr Nat.min d l)) as [[_ ->]|[_ ->]].
  - right. by left.
  - destruct IH as [->|IH]; [by left|]. right. by right.
Qed.

Lemma minimum_lower l x : x ∈ l -> (cv2.minimum l <= x)%nat.
Proof. apply foldr_min_lower. Qed.

Lemma minimum_elem l : l <> [] -> cv2.minimum l ∈ l.
Proof.
  destruct l as [|a l]; [done|]. intros _. unfold cv2.minimum.
  destruct (foldr_min_elem (a :: l) (List.hd 0%nat (a :: l))) as [->|?]; [by left|done].
Qed.

Lemma maximum_upper l x : x ∈ l -> (x <= cv2.maximum l)%nat.
Proof.
  unfold cv2.maximum. induction l as [|a l IH]; [by intros ?%elem_of_nil|].
  intros [->|Hx]%elem_of_cons; simpl; [lia|]. specialize (IH Hx). lia.
Qed.

Lemma maximum_elem l : l <> [] -> cv2.maximum l ∈ l.
Proof.
  unfold cv2.maximum. induction l as [|a l IH]; [done|]. intros _. simpl.
  destruct (Nat.max_spec a (foldr Nat.max 0%nat l)) as [[Hlt ->]|[_ ->]]; [|by left].
  right. apply IH. intros ->. simpl in Hlt. lia.
Qed.

End MinMax.

Section Cv2Facts.
Context `{Cv2}.
Implicit Types (img src : image) (row : list Z).

Lemma nonzero_columns_spec row (x : nat) :
  x ∈ cv2.nonzero_columns row <-> exists p, row !! x = Some p /\ p <> 0.
Proof.
  unfold cv2.nonzero_columns. rewrite list_elem_of_join. split.
  - intros (l & Hx & Hl). apply elem_of_lookup_imap in Hl as (i & p & -> & Hi).
    destruct (p =? 0) eqn:E; [by apply elem_of_nil in Hx|].
    apply list_elem_of_singleton in Hx as ->. exists p. split; [done|lia].
  - intros (p & Hp & Hne). exists [x]. split; [by apply list_elem_of_singleton|].
    apply elem_of_lookup_imap. exists x, p. split; [|done].
    destruct (p =? 0) eqn:E; [lia|done].
Qed.

Lemma elem_of_points src (x y : nat) :
  (x, y) ∈ mjoin (imap (fun (y : nat) row => (fun x => (x, y)) <$> cv2.nonzero_columns row) src)
  <-> exists p, pixel src y x = Some p /\ p <> 0.
Proof.
  rewrite list_elem_of_join. unfold pixel. split.
  - intros (l & Hx & Hl). apply elem_of_lookup_imap in Hl as (i & row & -> & Hi).
    apply list_elem_of_fmap in Hx as (x' & Heq & Hx'). simplify_eq.
    apply nonzero_columns_spec in Hx' as (p & Hp & Hne).
    exists p. by rewrite Hi.
  - intros (p & Hp & Hne). destruct (src !! y) as [row|] eqn:Hrow; [|done].
    simpl in Hp. exists ((fun x => (x, y)) <$> cv2.nonzero_columns row). split.
    + apply list_elem_of_fmap. exists x. split; [done|].
      apply nonzero_columns_spec. by exists p.
    + apply elem_of_lookup_imap. by exists y, row.
Qed.

Lemma findNonZero_None src :
  cv2.findNonZero src = None <-> forall (x y : nat) p, pixel src y x = Some p -> p = 0.
Proof.
  unfold cv2.findNonZero.
  destruct (mjoin _) as [|[x0 y0] pts] eqn:E; split; try done.
  - intros _ x y p Hp. destruct (decide (p = 0)) as [|Hne]; [done|].
    assert (Hin : (x, y) ∈ @nil (nat * nat)).
    { rewrite <-E. apply elem_of_points. by exists p. }
    by apply elem_of_nil in Hin.
  - intros Hall. assert (Hin : (x0, y0) ∈ (x0, y0) :: pts) by by left.
    rewrite <-E in Hin. apply elem_of_points in Hin as (p & Hp & Hne).
    by apply Hall in Hp.
Qed.

Lemma findNonZero_Some src pts :
  cv2.findNonZero src = Some pts ->
  pts <> [] /\ forall (x y : nat), (x, y) ∈ pts <-> exists p, pixel src y x = Some p /\ p <> 0.
Proof.
  unfold cv2.findNonZero.
  destruct (mjoin _) as [|pt l] eqn:E; [done|]. intros [= <-]. split; [done|].
  intros x y. rewrite <-E. apply elem_of_points.
Qed.

Lemma pixel_threshold img (r c : nat) :
  pixel (snd (cv2.threshold img)) r c =
    (fun p : Z => if otsu img <? p then 255 else 0) <$> pixel img r c.
Proof.
  unfold pixel, cv2.threshold. simpl. rewrite list_lookup_fmap.
  destruct (img !! r) as [row|]; [|done]. simpl. by rewrite list_lookup_fmap.
Qed.

Lemma mask_nonzero img (r c : nat) :
  (exists p, pixel (snd (cv2.threshold img)) r c = Some p /\ p <> 0)
  <-> cv2.is_foreground img r c = true.
Proof.
  rewrite pixel_threshold. unfold cv2.is_foreground.
  destruct (pixel img r c) as [p|]; simpl.
  - destruct (otsu img <? p); split; try done.
    + intros _. by exists 255.
    + intros (q & Hq & Hne). by simplify_eq.
  - split; [|done]. by intros (q & Hq & _).
Qed.

Lemma mask_points img pts :
  cv2.findNonZero (snd (cv2.threshold img)) = Some pts ->
  pts <> [] /\ forall (x y : nat), (x, y) ∈ pts <-> cv2.is_foreground img y x = true.
Proof.
  intros [Hne Hpts]%findNonZero_Some. split; [done|].
  intros x y. by rewrite Hpts, mask_nonzero.
Qed.

Lemma mask_empty img :
  cv2.findNonZero (snd (cv2.threshold img)) = None
  <-> forall (r c : nat), cv2.is_foreground img r c = false.
Proof.
  rewrite findNonZero_None. split.
  - intros Hall r c. apply not_true_is_false. intros Hfg.
    apply mask_nonzero in Hfg as (p & Hp & Hne). by apply Hall in Hp.
  - intros Hall x y p Hp. destruct (decide (p = 0)) as [|Hne]; [done|].
    assert (cv2.is_foreground img y x = true) as Hfg by (apply mask_nonzero; eauto).
    by rewrite Hall in Hfg.
Qed.

Lemma boundingRect_spec pts (x y w h : nat) :
  pts <> [] ->
  cv2.boundingRect (Some pts) = (x, y, w, h) ->
  (forall c r : nat, (c, r) ∈ pts -> (x <= c < x + w)%nat /\ (y <= r < y + h)%nat) /\
  (exists r, (x, r) ∈ pts) /\ (exists r, ((x + w - 1)%nat, r) ∈ pts) /\
  (exists c, (c, y) ∈ pts) /\ (exists c, (c, (y + h - 1)%nat) ∈ pts).
Proof.
  intros Hne. unfold cv2.boundingRect. intros [= <- <- <- <-].
  assert (Hxs : pts.*1 <> []) by by destruct pts.
  assert (Hys : pts.*2 <> []) by by destruct pts.
  pose proof (minimum_elem _ Hxs) as Hminx. pose proof (maximum_elem _ Hxs) as Hmaxx.
  pose proof (minimum_elem _ Hys) as Hminy. pose proof (maximum_elem _ Hys) as Hmaxy.
  pose proof (minimum_lower _ _ Hmaxx) as Hx. pose proof (minimum_lower _ _ Hmaxy) as Hy.
  split.
  - intros c r Hin.
    assert (c ∈ pts.*1) as Hc by (apply list_elem_of_fmap; by exists (c, r)).
    assert (r ∈ pts.*2) as Hr by (apply list_elem_of_fmap; by exists (c, r)).
    pose proof (minimum_lower _ _ Hc). pose proof (maximum_upper _ _ Hc).
    pose proof (minimum_lower _ _ Hr). pose proof (maximum_upper _ _ Hr). lia.
  - replace (cv2.minimum pts.*1 + (cv2.maximum pts.*1 - cv2.minimum pts.*1 + 1) - 1)%nat
      with (cv2.maximum pts.*1) by lia.
    replace (cv2.minimum pts.*2 + (cv2.maximum pts.*2 - cv2.minimum pts.*2 + 1) - 1)%nat
      with (cv2.maximum pts.*2) by lia.
    apply list_elem_of_fmap in Hminx as ([a b] & Ea & Ha).
    apply list_elem_of_fmap in Hmaxx as ([a' b'] & Ea' & Ha').
    apply list_elem_of_fmap in Hminy as ([c d] & Ec & Hc).
    apply list_elem_of_fmap in Hmaxy as ([c' d'] & Ec' & Hc').
    simpl in *. rewrite Ea, Ea', Ec, Ec'. eauto 10.
Qed.

End Cv2Facts.

(** ** Cropping *)

Section CropFacts.
Context `{Cv2}.
Implicit Types (img : image).

Lemma boundingRect_foreground img (r0 c0 : nat) :
  cv2.is_foreground img r0 c0 = true ->
  exists x y w h,
    cv2.boundingRect (cv2.findNonZero (snd (cv2.threshold img))) = (x, y, w, h) /\
    cv2.bounding_box img x y w h.
Proof.
  intros Hfg.
  destruct (cv2.findNonZero (snd (cv2.threshold img))) as [pts|] eqn:Epts.
  2:{ by rewrite (proj1 (mask_empty img) Epts) in Hfg. }
  apply mask_points in Epts as [Hne Hpts].
  destruct (cv2.boundingRect (Some pts)) as [[[x y] w] h] eqn:Ebox.
  exists x, y, w, h. split; [done|].
  destruct (boundingRect_spec pts x y w h Hne Ebox)
    as (Hin & [r1 H1] & [r2 H2] & [c3 H3] & [c4 H4]).
  repeat split.
  - apply (Hin c r). by apply Hpts.
  - apply (Hin c r). by apply Hpts.
  - apply (Hin c r). by apply Hpts.
  - apply (Hin c r). by apply Hpts.
  - exists r1. by apply Hpts.
  - exists r2. by apply Hpts.
  - exists c3. by apply Hpts.
  - exists c4. by apply Hpts.
Qed.

Lemma is_foreground_inside img (r c : nat) :
  rectangular img -> cv2.is_foreground img r c = true ->
  (r < height img)%nat /\ (c < width img)%nat.
Proof.
  intros Hrect. unfold cv2.is_foreground, pixel.
  destruct (img !! r) as [row|] eqn:Er; [|done]. simpl.
  destruct (row !! c) as [p|] eqn:Ec; [|done]. intros _.
  split; [by eapply lookup_lt_Some|].
  rewrite <-(proj1 (Forall_lookup _ _) Hrect r row Er). by eapply lookup_lt_Some.
Qed.


Lemma crop_spec img (x y w h : nat) :
  rectangular img -> (y + h <= height img)%nat -> (x + w <= width img)%nat ->
  height (slice2 img y (y + h) x (x + w)) = h /\
  Forall (fun row => length row = w) (slice2 img y (y + h) x (x + w)) /\
  (forall i j : nat, (i < h)%nat -> (j < w)%nat ->
     pixel (slice2 img y (y + h) x (x + w)) i j = pixel img (y + i) (x + j)).
Proof.
  intros Hrect Hh Hw. unfold slice2, height in *. split; [|split].
  - rewrite length_fmap, length_slice. lia.
  - apply Forall_fmap, Forall_lookup. intros i row Hrow. simpl.
    assert (i < y + h - y)%nat as Hi.
    { apply lookup_lt_Some in Hrow. rewrite length_slice in Hrow. lia. }
    rewrite lookup_slice in Hrow by done.
    rewrite length_slice, (proj1 (Forall_lookup _ _) Hrect _ _ Hrow). lia.
  - intros i j Hi Hj. unfold pixel.
    rewrite list_lookup_fmap, lookup_slice by lia.
    destruct (img !! (y + i)%nat) as [row|]; [|done]. simpl.
    apply lookup_slice. lia.
Qed.

End CropFacts.

(** ** [_process_image] *)

Section ProcessImage.
Context `{Cv2} `{Listing}.
Implicit Types (img : image) (s : fs).

Lemma resize_spec (src : image) (w h : nat) :
  empty src = false -> (0 < w)%nat -> (0 < h)%nat ->
  exists dst,
    cv2.resize src (w, h) = Ok dst /\
    height dst = h /\ Forall (fun row => length row = w) dst /\
    (forall r c : nat, (r < h)%nat -> (c < w)%nat ->
       pixel dst r c = Some (cubic src w h r c)) /\
    empty dst = false.
Proof.
  intros Hsrc Hw Hh. unfold cv2.resize. rewrite Hsrc.
  destruct (Nat.eqb_spec w 0); [lia|]. destruct (Nat.eqb_spec h 0); [lia|]. simpl.
  eexists. split; [reflexivity|]. split; [|split; [|split]].
  - unfold height. by rewrite length_fmap, length_seq.
  - apply Forall_fmap, Forall_forall. intros r _. simpl.
    by rewrite length_fmap, length_seq.
  - intros r c Hr Hc. unfold pixel.
    rewrite list_lookup_fmap, lookup_seq_lt by done. simpl.
    by rewrite list_lookup_fmap, lookup_seq_lt.
  - unfold empty, height, width. destruct h as [|h]; [lia|]. simpl.
    rewrite length_fmap, length_seq. destruct w; [lia|done].
Qed.

Lemma crop_brain_region_Some img :
  ADNIDataset._crop_brain_region (Some img) =
    let '(x, y, w, h) := cv2.boundingRect (cv2.findNonZero (snd (cv2.threshold img))) in
    Ok (slice2 img y (y + h) x (x + w)).
Proof. reflexivity. Qed.

Lemma crop_brain_region_background img :
  (forall r c : nat, cv2.is_foreground img r c = false) ->
  ADNIDataset._crop_brain_region (Some img) = Ok [].
Proof.
  intros Hbg. rewrite crop_brain_region_Some.
  by rewrite (proj2 (mask_empty img) Hbg).
Qed.

Lemma crop_brain_region_foreground img :
  rectangular img ->
  (exists r c : nat, cv2.is_foreground img r c = true) ->
  exists (x y w h : nat) cropped,
    cv2.boundingRect (cv2.findNonZero (snd (cv2.threshold img))) = (x, y, w, h) /\
    cv2.bounding_box img x y w h /\
    ADNIDataset._crop_brain_region (Some img) = Ok cropped /\
    height cropped = h /\ Forall (fun row => length row = w) cropped /\
    (forall i j : nat, (i < h)%nat -> (j < w)%nat ->
       pixel cropped i j = pixel img (y + i) (x + j)) /\
    empty cropped = false.
Proof.
  intros Hrect (r0 & c0 & Hfg).
  destruct (boundingRect_foreground img r0 c0 Hfg) as (x & y & w & h & Ebox & Hbox).
  exists x, y, w, h, (slice2 img y (y + h) x (x + w)). split; [done|]. split; [done|].
  pose proof Hbox as (Hin & _ & [r2 H2] & _ & [c4 H4]).
  destruct (Hin r0 c0 Hfg) as [Hy Hx].
  apply (is_foreground_inside _ _ _ Hrect) in H2 as [_ H2].
  apply (is_foreground_inside _ _ _ Hrect) in H4 as [H4 _].
  destruct (crop_spec img x y w h Hrect) as (Hh & Hw & Hpix); [lia..|].
  split.
  { by rewrite crop_brain_region_Some, Ebox. }
  split; [done|]. split; [done|]. split; [done|].
  unfold empty. rewrite Hh. unfold width.
  destruct (slice2 img y (y + h) x (x + w)) as [|row rest] eqn:Ec; [simpl in Hh; lia|].
  apply Forall_cons in Hw as [Hrow _]. simpl. rewrite Hrow.
  destruct h; [lia|]. destruct w; [lia|done].
Qed.


Lemma process_image_background input_path output_path s img :
  s !! input_path = Some (File (Some img)) ->
  (forall r c : nat, cv2.is_foreground img r c = false) ->
  ADNIDataset._process_image input_path output_path s = (Raise cv2_error, s).
Proof.
  intros Hin Hbg. unfold ADNIDataset._process_image, bind, cv2_io.imread, lift.
  rewrite Hin. by rewrite (crop_brain_region_background img Hbg).
Qed.

Lemma process_image_foreground input_path output_path s img cropped resized :
  s !! input_path = Some (File (Some img)) ->
  ADNIDataset._crop_brain_region (Some img) = Ok cropped ->
  cv2.resize cropped (210, 210)%nat = Ok resized ->
  empty resized = false ->
  os.isdir (dirname output_path) s = true ->
  os.isdir output_path s = false ->
  ADNIDataset._process_image input_path output_path s =
    (Ok tt, <[output_path := File (Some resized)]> (os.link output_path s)).
Proof.
  intros Hin Hcrop Hres Hne Hdir Hout.
  unfold ADNIDataset._process_image, bind, cv2_io.imread, lift, cv2_io.imwrite, ret.
  rewrite Hin, Hcrop, Hres, Hne. unfold os.isdir in *.
  destruct (s !! dirname output_path) as [[names|?]|]; try done.
  by destruct (s !! output_path) as [[?|?]|].
Qed.

End ProcessImage.

(** ** What preprocessing does to the filesystem *)

Section Paths.
Implicit Types (p out : path) (f : string).

Lemma dirname_join p f : dirname (join p f) = p.
Proof.
  unfold dirname, join. rewrite length_app. simpl.
  replace (length p + 1 - 1)%nat with (length p) by lia. apply take_app_length.
Qed.

Lemma length_join p f : length (join p f) = S (length p).
Proof. unfold join. rewrite length_app. simpl. lia. Qed.

Lemma join_inj p q f g : join p f = join q g -> p = q /\ f = g.
Proof. unfold join. intros E. by apply app_inj_tail in E. Qed.

Lemma join_ne_self p f : join p f <> p.
Proof. intros E. apply (f_equal length) in E. rewrite length_join in E. lia. Qed.

End Paths.

Section Frame.
Context `{Listing}.
Implicit Types (p q out : path) (s : fs) (f : string).

Lemma step_refl out s : step out s s.
Proof. split; [by intros p|done]. Qed.

Lemma step_trans out s1 s2 s3 : step out s1 s2 -> step out s2 s3 -> step out s1 s3.
Proof.
  intros [G1 F1] [G2 F2]. split; [intros p Hp; by apply G2, G1|].
  intros p Hp. by rewrite F2, F1.
Qed.

Lemma exists_true p s : os.exists_ p s = true <-> is_Some (s !! p).
Proof. unfold os.exists_. apply bool_decide_eq_true. Qed.

Lemma exists_false p s : os.exists_ p s = false <-> s !! p = None.
Proof.
  unfold os.exists_. rewrite bool_decide_eq_false. symmetry. apply eq_None_not_Some.
Qed.

Lemma link_is_Some q s p : is_Some (s !! p) -> is_Some (os.link q s !! p).
Proof.
  unfold os.link. destruct (last q) as [name|]; [|done].
  destruct (s !! dirname q) as [[names|c]|] eqn:E; try done.
  case_bool_decide; [done|]. intros Hp.
  destruct (decide (dirname q = p)) as [<-|Hne].
  - by rewrite lookup_insert_eq.
  - by rewrite lookup_insert_ne.
Qed.

Lemma link_other q s p : p <> dirname q -> os.link q s !! p = s !! p.
Proof.
  intros Hne. unfold os.link. destruct (last q) as [name|]; [|done].
  destruct (s !! dirname q) as [[names|c]|] eqn:E; try done.
  case_bool_decide; [done|]. by rewrite lookup_insert_ne.
Qed.

Lemma insert_link_step out q (n : node) s :
  (q = out \/ exists f, q = join out f) ->
  step out s (<[q := n]> (os.link q s)).
Proof.
  intros Hq. split.
  - intros p Hp. destruct (decide (q = p)) as [<-|Hne].
    + by rewrite lookup_insert_eq.
    + rewrite lookup_insert_ne by done. by apply link_is_Some.
  - intros p Hp. unfold touched in Hp.
    rewrite lookup_insert_ne.
    + apply link_other. intros ->. apply Hp.
      destruct Hq as [->|[f ->]]; [by left|]. right. left. apply dirname_join.
    + intros <-. apply Hp. right. done.
Qed.

Lemma makedirs_step out s r s' :
  os.makedirs out s = (r, s') ->
  step out s s' /\ (os.exists_ out s = false -> r = Ok tt /\ os.isdir out s' = true).
Proof.
  unfold os.makedirs. destruct (os.exists_ out s) eqn:E; intros [= <- <-].
  - split; [apply step_refl|done].
  - split; [apply insert_link_step; by left|]. intros _. split; [done|].
    unfold os.isdir. by rewrite lookup_insert_eq.
Qed.

Lemma imwrite_step out f (img : image) s r s' :
  cv2_io.imwrite (join out f) img s = (r, s') -> step out s s'.
Proof.
  unfold cv2_io.imwrite. destruct (empty img); [intros [= <- <-]; apply step_refl|].
  destruct (s !! dirname (join out f)) as [[names|c]|];
    try (intros [= <- <-]; apply step_refl).
  destruct (s !! join out f) as [[names'|c]|]; intros [= <- <-];
    try apply step_refl; apply insert_link_step; right; by exists f.
Qed.

Lemma for_each_step {A} out (body : A -> M unit) (l : list A) :
  (forall x s r s', body x s = (r, s') -> step out s s') ->
  forall s r s', for_each l body s = (r, s') -> step out s s'.
Proof.
  intros Hbody. induction l as [|x l IH]; intros s r s'; simpl.
  - intros [= <- <-]. apply step_refl.
  - unfold bind at 1. destruct (body x s) as [[[]|e] s1] eqn:E.
    + intros Hrest. eapply step_trans; [by eapply Hbody|by eapply IH].
    + intros [= <- <-]. by eapply Hbody.
Qed.

End Frame.

Section DatasetFrame.
Context `{Cv2} `{Listing}.
Implicit Types (p inp out : path) (s : fs) (f : string).

Lemma process_image_step inp out f s r s' :
  ADNIDataset._process_image inp (join out f) s = (r, s') -> step out s s'.
Proof.
  unfold ADNIDataset._process_image, bind, cv2_io.imread, lift, ret.
  set (image := match s !! inp with Some (File (Some img)) => Some img | _ => None end).
  assert ((match s !! inp with
           | Some (File (Some img)) => (Ok (Some img), s)
           | _ => (Ok None, s)
           end) = (Ok image, s)) as ->.
  { subst image. by destruct (s !! inp) as [[?|[?|]]|]. }
  destruct (ADNIDataset._crop_brain_region image) as [cropped|e];
    [|intros [= <- <-]; apply step_refl].
  destruct (cv2.resize cropped _) as [resized|e];
    [|intros [= <- <-]; apply step_refl].
  destruct (cv2_io.imwrite (join out f) resized s) as [[b|e] s1] eqn:E;
    intros [= <- <-]; by eapply imwrite_step.
Qed.

Lemma process_directory_step inp out s r s' :
  ADNIDataset._process_directory inp out s = (r, s') -> step out s s'.
Proof.
  unfold ADNIDataset._process_directory, bind at 1, os.listdir.
  destruct (s !! inp) as [[names|c]|]; try (intros [= <- <-]; apply step_refl).
  apply for_each_step. intros filename s0 r0 s0'.
  destruct (Str.endswith _ _).
  - apply process_image_step.
  - intros [= <- <-]. apply step_refl.
Qed.

Lemma preprocess_block_skip inp out s :
  os.exists_ out s = true -> ADNIDataset.preprocess_block inp out s = (Ok tt, s).
Proof. intros E. unfold ADNIDataset.preprocess_block. by rewrite E. Qed.

Lemma preprocess_block_create inp out s :
  os.exists_ out s = false ->
  exists s1, os.makedirs out s = (Ok tt, s1) /\ os.isdir out s1 = true /\
    ADNIDataset.preprocess_block inp out s = ADNIDataset._process_directory inp out s1.
Proof.
  intros E. unfold ADNIDataset.preprocess_block. rewrite E. simpl.
  destruct (os.makedirs out s) as [r s1] eqn:Em.
  destruct (makedirs_step _ _ _ _ Em) as [_ Hr]. destruct (Hr E) as [-> Hd].
  exists s1. split; [done|]. split; [done|]. unfold bind. by rewrite Em.
Qed.

Lemma isdir_exists p s : os.isdir p s = true -> os.exists_ p s = true.
Proof.
  unfold os.isdir. intros Hd. apply exists_true.
  by destruct (s !! p) as [[?|?]|].
Qed.

Lemma keeps_exists p s s' : keeps s s' -> os.exists_ p s = true -> os.exists_ p s' = true.
Proof. intros Hg. rewrite !exists_true. apply Hg. Qed.

Lemma step_exists out p s s' : step out s s' -> os.exists_ p s = true -> os.exists_ p s' = true.
Proof. intros [Hg _]. by apply keeps_exists. Qed.

Lemma preprocess_block_step inp out s r s' :
  ADNIDataset.preprocess_block inp out s = (r, s') ->
  step out s s' /\ os.exists_ out s' = true.
Proof.
  destruct (os.exists_ out s) eqn:E.
  - rewrite preprocess_block_skip by done. intros [= <- <-].
    split; [apply step_refl|done].
  - destruct (preprocess_block_create inp out s E) as (s1 & Em & Hd & ->).
    intros Hp. apply makedirs_step in Em as [Hs1 _].
    apply process_directory_step in Hp. split.
    + by eapply step_trans.
    + eapply step_exists; [done|]. by apply isdir_exists.
Qed.

End DatasetFrame.

(** ** Claims on [split_dataset] *)

Section SplitClaims.
Context {G : Type} `{Random G}.
Implicit Types (ds : ADNIDataset.t) (r : Float64.float) (seed : option Z) (g : G).

(** C2.  With a seed, the result of [split_dataset], the two
    index lists included, and the generator state it leaves are the same
    whatever the state of the global generator at the call: two calls
    with the same dataset, ratio and seed return identical partitions. *)
Theorem split_dataset_seed_deterministic ds r (a : Z) g1 g2 :
  split_dataset ds r (Some a) g1 = split_dataset ds r (Some a) g2.
Proof. reflexivity. Qed.

(** C9.  A call with a seed leaves the global generator in
    the state reached from [random.seed(seed)], not in a state derived
    from the one it found; so of two prior states that would have given
    different next draws, at least one sees its next draw changed by the
    call. *)
Theorem split_dataset_overwrites_global_state ds r (a : Z) :
  (forall g,
     snd (split_dataset ds r (Some a) g) =
       match split_point r (ADNIDataset.__len__ ds) with
       | Ok _ => snd (shuffle (range (ADNIDataset.__len__ ds)) (random_seed a))
       | Raise _ => random_seed a
       end) /\
  (forall (n : nat) g1 g2,
     fst (randbelow n g1) <> fst (randbelow n g2) ->
     fst (randbelow n (snd (split_dataset ds r (Some a) g1))) <> fst (randbelow n g1) \/
     fst (randbelow n (snd (split_dataset ds r (Some a) g2))) <> fst (randbelow n g2)).
Proof.
  split.
  - intros g. unfold split_dataset. simpl.
    destruct (split_point r _); [|done].
    by destruct (shuffle _ (random_seed a)) as [[?|?] ?].
  - intros n g1 g2 Hne.
    destruct (decide (fst (randbelow n (snd (split_dataset ds r (Some a) g1)))
                      = fst (randbelow n g1))) as [E|E]; [|by left].
    right. intros E2. apply Hne. rewrite <-E, <-E2. reflexivity.
Qed.

Context `{!RandomSpec G}.

(** C1.  For every dataset of [N] samples, every seed and every ratio
    between 0 and 1, [split_dataset] returns two views of the dataset
    whose index lists are disjoint, without repetition, and together hold
    exactly the indices [0 .. N-1]; their sizes are [k] and [N - k] for
    [k = int(np.floor(split_ratio * N))] (third part, for [N < 2^53]).
    More generally, whenever that [k] is an integer the two lists
    partition [0 .. N-1], with the sizes of the slices [indices[:k]] and
    [indices[k:]], which are [k] and [N - k] exactly when
    [0 <= k <= N]. *)
Theorem split_dataset_partition ds r seed g :
  (forall k, split_point r (ADNIDataset.__len__ ds) = Ok k ->
   exists tr va g',
     split_dataset ds r seed g = (Ok (tr, va), g') /\
     dataset tr = ds /\ dataset va = ds /\
     indices tr ++ indices va ≡ₚ range (ADNIDataset.__len__ ds) /\
     NoDup (indices tr ++ indices va) /\
     (forall i, i ∈ indices tr -> i ∉ indices va) /\
     (forall i, (i < ADNIDataset.__len__ ds)%nat <-> i ∈ indices tr \/ i ∈ indices va) /\
     length (indices tr) = slice_bound k (ADNIDataset.__len__ ds) /\
     length (indices va) =
       (ADNIDataset.__len__ ds - slice_bound k (ADNIDataset.__len__ ds))%nat /\
     (0 <= k <= Z.of_nat (ADNIDataset.__len__ ds) <->
        Z.of_nat (length (indices tr)) = k /\
        Z.of_nat (length (indices va)) = Z.of_nat (ADNIDataset.__len__ ds) - k)) /\
  (Float64.in_unit_interval r = true ->
   Z.of_nat (ADNIDataset.__len__ ds) < 2 ^ 53 ->
   exists k, split_point r (ADNIDataset.__len__ ds) = Ok k /\
     0 <= k <= Z.of_nat (ADNIDataset.__len__ ds)) /\
  (Float64.in_unit_interval r = true ->
   Z.of_nat (ADNIDataset.__len__ ds) < 2 ^ 53 ->
   exists k tr va g',
     split_point r (ADNIDataset.__len__ ds) = Ok k /\
     split_dataset ds r seed g = (Ok (tr, va), g') /\
     dataset tr = ds /\ dataset va = ds /\
     indices tr ++ indices va ≡ₚ range (ADNIDataset.__len__ ds) /\
     NoDup (indices tr ++ indices va) /\
     (forall i, i ∈ indices tr -> i ∉ indices va) /\
     (forall i, (i < ADNIDataset.__len__ ds)%nat <-> i ∈ indices tr \/ i ∈ indices va) /\
     Z.of_nat (length (indices tr)) = k /\
     Z.of_nat (length (indices va)) = Z.of_nat (ADNIDataset.__len__ ds) - k).
Proof.
  assert (Hsizes : forall k, split_point r (ADNIDataset.__len__ ds) = Ok k ->
    exists tr va g',
      split_dataset ds r seed g = (Ok (tr, va), g') /\
      dataset tr = ds /\ dataset va = ds /\
      indices tr ++ indices va ≡ₚ range (ADNIDataset.__len__ ds) /\
      NoDup (indices tr ++ indices va) /\
      (forall i, i ∈ indices tr -> i ∉ indices va) /\
      (forall i, (i < ADNIDataset.__len__ ds)%nat <-> i ∈ indices tr \/ i ∈ indices va) /\
      length (indices tr) = slice_bound k (ADNIDataset.__len__ ds) /\
      length (indices va) =
        (ADNIDataset.__len__ ds - slice_bound k (ADNIDataset.__len__ ds))%nat /\
      (0 <= k <= Z.of_nat (ADNIDataset.__len__ ds) <->
         Z.of_nat (length (indices tr)) = k /\
         Z.of_nat (length (indices va)) = Z.of_nat (ADNIDataset.__len__ ds) - k)).
  { intros k Hk. destruct (split_dataset_ok ds r seed g k Hk) as (idx & Hp & ->).
    set (N := ADNIDataset.__len__ ds) in *.
    assert (Hlen : length idx = N).
    { by rewrite Hp; unfold range; rewrite length_seq. }
    assert (Hnd : NoDup (slice_to idx k ++ slice_from idx k)).
    { rewrite slice_to_from, Hp. apply NoDup_seq. }
    do 3 eexists. split; [reflexivity|]. simpl.
    split; [done|]. split; [done|]. split; [by rewrite slice_to_from|].
    split; [done|]. split.
    { intros i Hi Hi'. apply NoDup_app in Hnd as (_ & Hd & _). by apply (Hd i). }
    split.
    { intros i. rewrite <-elem_of_app, slice_to_from, Hp. unfold range.
      rewrite elem_of_seq. lia. }
    rewrite slice_to_length, slice_from_length, Hlen.
    split; [done|]. split; [done|].
    pose proof (slice_bound_le k N). split.
    - intros Hr. rewrite (slice_bound_in_range k N Hr). lia.
    - intros [Hk' _]. lia. }
  split; [exact Hsizes|]. split; [by apply split_point_unit_interval|].
  intros Hr HN.
  destruct (split_point_unit_interval r _ Hr HN) as (k & Hk & Hrange).
  destruct (Hsizes k Hk)
    as (tr & va & g' & E & D1 & D2 & Hp & Hnd & Hdis & Hcov & _ & _ & Hsz).
  destruct (proj1 Hsz Hrange) as [Htr Hva].
  exists k, tr, va, g'. by repeat (split; [done|]).
Qed.

(** C5, amended.  [split_dataset] does not look at the ratio: it
    returns its two views exactly when [split_ratio * N] is a finite
    double, whatever the ratio and also when a view is empty, and the
    only exceptions it raises are [ValueError] and [OverflowError], from
    [int] on a product that is NaN or infinite.  For a ratio between 0
    and 1, the bounds included, it returns. *)
Theorem split_dataset_no_ratio_check ds r seed g :
  is_ok (fst (split_dataset ds r seed g)) =
    match Float64.of_int (Z.of_nat (ADNIDataset.__len__ ds)) with
    | Ok n => Float64.is_finite (Float64.mul r n)
    | Raise _ => false
    end /\
  (forall e, fst (split_dataset ds r seed g) = Raise e ->
     e = ValueError \/ e = OverflowError) /\
  (Float64.in_unit_interval r = true ->
   Z.of_nat (ADNIDataset.__len__ ds) < 2 ^ 53 ->
   is_ok (fst (split_dataset ds r seed g)) = true).
Proof.
  assert (Hok : is_ok (fst (split_dataset ds r seed g))
                = is_ok (split_point r (ADNIDataset.__len__ ds))).
  { destruct (split_point r (ADNIDataset.__len__ ds)) as [k|e] eqn:Hk.
    - by destruct (split_dataset_ok ds r seed g k Hk) as (idx & _ & ->).
    - by rewrite (split_dataset_raise ds r seed g e Hk). }
  split; [by rewrite Hok, split_point_ok_iff|]. split.
  - intros e He.
    destruct (split_point r (ADNIDataset.__len__ ds)) as [k|e'] eqn:Hk.
    + by rewrite He in Hok.
    + rewrite (split_dataset_raise ds r seed g e' Hk) in He. simpl in He.
      injection He as <-. by eapply split_point_raise.
  - intros Hr HN. rewrite Hok.
    by destruct (split_point_unit_interval r _ Hr HN) as (k & -> & _).
Qed.

End SplitClaims.

Import LCG.

Lemma split_dataset_partition_witness :
  Float64.in_unit_interval default_split_ratio = true /\
  Z.of_nat (ADNIDataset.__len__ Sample.five) < 2 ^ 53 /\
  split_point default_split_ratio (ADNIDataset.__len__ Sample.five) = Ok 4 /\
  exists tr va g',
    split_dataset Sample.five default_split_ratio (Some 42) (0 : Z) = (Ok (tr, va), g') /\
    indices tr ++ indices va ≡ₚ range 5 /\
    Z.of_nat (length (indices tr)) = 4 /\ Z.of_nat (length (indices va)) = 1.
Proof.
  assert (Float64.in_unit_interval default_split_ratio = true) as Hr
    by (vm_compute; reflexivity).
  assert (Z.of_nat (ADNIDataset.__len__ Sample.five) < 2 ^ 53) as HN
    by (vm_compute; reflexivity).
  assert (split_point default_split_ratio (ADNIDataset.__len__ Sample.five) = Ok 4)
    as Hk by (vm_compute; reflexivity).
  split; [exact Hr|]. split; [exact HN|]. split; [exact Hk|].
  destruct (proj2 (proj2 (@split_dataset_partition Z LCG.lcg_random lcg_spec
                            Sample.five default_split_ratio (Some 42) 0)) Hr HN)
    as (k & tr & va & g' & Hk' & E & _ & _ & Hp & _ & _ & _ & Htr & Hva).
  rewrite Hk in Hk'. injection Hk' as <-.
  exists tr, va, g'. split; [exact E|]. split; [exact Hp|].
  split; [exact Htr|exact Hva].
Defined.

(** The example of the specification: 80 and 20 out of 100 at ratio 0.8.
    The product is rounded before the floor is taken: the double nearest
    to 0.7 lies below 0.7, and yet 7 of 10 samples go to the first view. *)
Example split_point_examples :
  split_point default_split_ratio 100 = Ok 80 /\
  split_point (Float64.of_bits 6305039478318694 (-53)) 10 = Ok 7.
Proof. split; vm_compute; reflexivity. Qed.

(** Outside the ratios from 0 to 1 the slice bounds are clamped: with
    ratio 2.0 on a dataset of one sample, [floor(r * N)] is 2, and the
    views have sizes 1 and 0. *)
Example split_sizes_outside_unit_interval :
  split_point Sample.ratio_2 (ADNIDataset.__len__ Sample.one) = Ok 2 /\
  exists tr va g',
    split_dataset Sample.one Sample.ratio_2 (Some 42) (0 : Z) = (Ok (tr, va), g') /\
    Z.of_nat (length (indices tr)) = 1 /\ Z.of_nat (length (indices va)) = 0.
Proof. split; [vm_compute; reflexivity|]. do 3 eexists. vm_compute. done. Qed.

(** C5 as the specification states it does not hold: ratio 2.0 lies
    outside (0,1) and ratio 0.0 gives an empty training view, and both
    calls return. *)
Lemma ratio_validation_counterexample :
  is_ok (fst (split_dataset Sample.one Sample.ratio_2 None (0 : Z))) = true /\
  (exists va g', split_dataset Sample.five (S754_zero false) None (0 : Z)
     = (Ok ({| dataset := Sample.five; indices := [] |}, va), g')).
Proof. split; [vm_compute; reflexivity|]. do 2 eexists. vm_compute. reflexivity. Qed.

Lemma split_dataset_no_ratio_check_witness :
  is_ok (fst (split_dataset Sample.one Sample.ratio_2 None (0 : Z))) = true /\
  (forall e, fst (split_dataset Sample.five S754_nan None (0 : Z)) = Raise e ->
     e = ValueError \/ e = OverflowError).
Proof.
  split.
  - rewrite (proj1 (@split_dataset_no_ratio_check Z LCG.lcg_random lcg_spec
                      Sample.one Sample.ratio_2 None 0)).
    vm_compute. reflexivity.
  - apply (proj1 (proj2 (@split_dataset_no_ratio_check Z LCG.lcg_random lcg_spec
                           Sample.five S754_nan None 0))).
Defined.

Lemma split_dataset_overwrites_global_state_witness :
  fst (randbelow 10 (0 : Z)) <> fst (randbelow 10 (1 : Z)) /\
  (fst (randbelow 10 (snd (split_dataset Sample.five default_split_ratio (Some 42) (0 : Z))))
     <> fst (randbelow 10 (0 : Z)) \/
   fst (randbelow 10 (snd (split_dataset Sample.five default_split_ratio (Some 42) (1 : Z))))
     <> fst (randbelow 10 (1 : Z))).
Proof.
  assert (fst (randbelow 10 (0 : Z)) <> fst (randbelow 10 (1 : Z))) as Hne
    by (vm_compute; discriminate).
  split; [exact Hne|].
  exact (proj2 (split_dataset_overwrites_global_state
                  Sample.five default_split_ratio 42) 10%nat 0 1 Hne).
Defined.

(** ** Indexing *)

Section GetItem.
Context {A : Type}.
Implicit Types (l : list A) (idx : Z).

Lemma getitem_nonneg l idx :
  0 <= idx -> getitem l idx =
    match l !! Z.to_nat idx with Some a => Ok a | None => Raise IndexError end.
Proof.
  intros Hi. unfold getitem. destruct (idx <? 0) eqn:E; [lia|].
  by rewrite E.
Qed.

Lemma getitem_out_of_range l idx :
  idx < - Z.of_nat (length l) \/ Z.of_nat (length l) <= idx ->
  getitem l idx = Raise IndexError.
Proof.
  intros Hr. unfold getitem. destruct (idx <? 0) eqn:E.
  - destruct (idx + Z.of_nat (length l) <? 0) eqn:E'; [done|lia].
  - rewrite E. rewrite lookup_ge_None_2; [done|lia].
Qed.

Lemma getitem_negative l idx :
  - Z.of_nat (length l) <= idx < 0 ->
  getitem l idx = getitem l (idx + Z.of_nat (length l)).
Proof.
  intros Hr. unfold getitem.
  destruct (idx <? 0) eqn:E; [|lia].
  destruct (idx + Z.of_nat (length l) <? 0) eqn:E'; [lia|]. by rewrite E'.
Qed.

End GetItem.

(** ** Claims on [ADNIDataset] *)

Section DatasetClaims.
Context `{Cv2} `{Listing}.
Implicit Types (ds self : ADNIDataset.t) (s : fs) (idx : Z).

Lemma collect_ok self tr s ds s' :
  ADNIDataset.collect self tr s = (Ok ds, s') ->
  s' = s /\
  exists ad nc,
    s !! ADNIDataset.ad_processed_dir self = Some (Dir ad) /\
    s !! ADNIDataset.nc_processed_dir self = Some (Dir nc) /\
    ds = {| ADNIDataset.root := ADNIDataset.root self;
            ADNIDataset.ad_dir := ADNIDataset.ad_dir self;
            ADNIDataset.nc_dir := ADNIDataset.nc_dir self;
            ADNIDataset.ad_processed_dir := ADNIDataset.ad_processed_dir self;
            ADNIDataset.nc_processed_dir := ADNIDataset.nc_processed_dir self;
            ADNIDataset.ad_images := join (ADNIDataset.ad_processed_dir self) <$> ad;
            ADNIDataset.nc_images := join (ADNIDataset.nc_processed_dir self) <$> nc;
            ADNIDataset.images :=
              (join (ADNIDataset.ad_processed_dir self) <$> ad) ++
              (join (ADNIDataset.nc_processed_dir self) <$> nc);
            ADNIDataset.labels :=
              replicate (length (join (ADNIDataset.ad_processed_dir self) <$> ad)) 1 ++
              replicate (length (join (ADNIDataset.nc_processed_dir self) <$> nc)) 0;
            ADNIDataset.transform := tr |}.
Proof.
  unfold ADNIDataset.collect, bind, os.listdir, ret.
  destruct (s !! ADNIDataset.ad_processed_dir self) as [[ad|?]|]; try done.
  destruct (s !! ADNIDataset.nc_processed_dir self) as [[nc|?]|]; try done.
  intros [= <- <-]. split; [done|]. by exists ad, nc.
Qed.

Lemma init_ok root0 split tr s ds s' :
  ADNIDataset.__init__ root0 split tr s = (Ok ds, s') ->
  ADNIDataset.preprocess_images (ADNIDataset.fresh root0 split) s = (Ok tt, s') /\
  ADNIDataset.collect (ADNIDataset.fresh root0 split) tr s' = (Ok ds, s').
Proof.
  unfold ADNIDataset.__init__, bind.
  destruct (ADNIDataset.preprocess_images _ s) as [[[]|e] s1]; [|done].
  intros Hc. destruct (collect_ok _ _ _ _ _ Hc) as [-> _]. done.
Qed.

(** C3.  A constructed dataset lists the paths of the
    AD_processed directory, in listing order, followed by those of the
    NC_processed directory; [dataset[idx]] for [idx] in the first part
    opens that AD path and carries label 1, and for [idx] in the second
    part opens that NC path and carries label 0. *)
Theorem dataset_order_and_labels root0 split tr s ds s' :
  ADNIDataset.__init__ root0 split tr s = (Ok ds, s') ->
  exists ad nc,
    os.listdir (join (join root0 split) "AD_processed") s' = (Ok ad, s') /\
    os.listdir (join (join root0 split) "NC_processed") s' = (Ok nc, s') /\
    ADNIDataset.ad_images ds = join (join (join root0 split) "AD_processed") <$> ad /\
    ADNIDataset.nc_images ds = join (join (join root0 split) "NC_processed") <$> nc /\
    ADNIDataset.images ds = ADNIDataset.ad_images ds ++ ADNIDataset.nc_images ds /\
    ADNIDataset.__len__ ds = (length ad + length nc)%nat /\
    forall idx s1,
      (0 <= idx < Z.of_nat (length ad) ->
         exists p, ADNIDataset.ad_images ds !! Z.to_nat idx = Some p /\
           ADNIDataset.labels ds !! Z.to_nat idx = Some 1 /\
           ADNIDataset.__getitem__ ds idx s1 =
             match PIL.open_L p s1 with
             | Ok img => Ok (default id tr img, 1)
             | Raise e => Raise e
             end) /\
      (Z.of_nat (length ad) <= idx < Z.of_nat (ADNIDataset.__len__ ds) ->
         exists p, ADNIDataset.nc_images ds !! (Z.to_nat idx - length ad)%nat = Some p /\
           ADNIDataset.labels ds !! Z.to_nat idx = Some 0 /\
           ADNIDataset.__getitem__ ds idx s1 =
             match PIL.open_L p s1 with
             | Ok img => Ok (default id tr img, 0)
             | Raise e => Raise e
             end).
Proof.
  intros [_ Hc]%init_ok. apply collect_ok in Hc as (_ & ad & nc & Had & Hnc & ->).
  simpl in Had, Hnc. exists ad, nc. unfold os.listdir. rewrite Had, Hnc. simpl.
  set (adp := join (join root0 split) "AD_processed").
  set (ncp := join (join root0 split) "NC_processed").
  do 5 (split; [done|]). split.
  { unfold ADNIDataset.__len__. simpl. by rewrite length_app, !length_fmap. }
  intros idx s1. unfold ADNIDataset.__len__, ADNIDataset.__getitem__. simpl.
  rewrite length_app, !length_fmap. split; intros Hidx.
  - destruct (lookup_lt_is_Some_2 ad (Z.to_nat idx)) as [f Hf]; [lia|].
    exists (join adp f). rewrite list_lookup_fmap, Hf. split; [done|].
    assert (Hl : (replicate (length ad) 1 ++ replicate (length nc) 0) !! Z.to_nat idx
                 = Some 1).
    { rewrite lookup_app_l by (rewrite length_replicate; lia).
      apply lookup_replicate_2. lia. }
    split; [done|].
    rewrite !getitem_nonneg by lia.
    rewrite lookup_app_l by (rewrite length_fmap; lia).
    rewrite list_lookup_fmap, Hf, Hl. simpl.
    destruct (PIL.open_L (join adp f) s1); [|done]. by destruct tr.
  - destruct (lookup_lt_is_Some_2 nc (Z.to_nat idx - length ad)) as [f Hf]; [lia|].
    exists (join ncp f). rewrite list_lookup_fmap, Hf. split; [done|].
    assert (Hl : (replicate (length ad) 1 ++ replicate (length nc) 0) !! Z.to_nat idx
                 = Some 0).
    { rewrite lookup_app_r by (rewrite length_replicate; lia).
      rewrite length_replicate. apply lookup_replicate_2. lia. }
    split; [done|].
    rewrite !getitem_nonneg by lia.
    rewrite lookup_app_r by (rewrite length_fmap; lia).
    rewrite length_fmap, list_lookup_fmap, Hf, Hl. simpl.
    destruct (PIL.open_L (join ncp f) s1); [|done]. by destruct tr.
Qed.

(** C8, amended.  [dataset[idx]] raises [IndexError] when
    [idx >= N] or [idx < -N]; an index in [-N .. -1] is not an error, it
    addresses the sample [idx + N]. *)
Theorem getitem_index_error ds idx s :
  (idx < - Z.of_nat (ADNIDataset.__len__ ds) \/ Z.of_nat (ADNIDataset.__len__ ds) <= idx ->
     ADNIDataset.__getitem__ ds idx s = Raise IndexError) /\
  (- Z.of_nat (ADNIDataset.__len__ ds) <= idx < 0 ->
   length (ADNIDataset.labels ds) = length (ADNIDataset.images ds) ->
     ADNIDataset.__getitem__ ds idx s =
     ADNIDataset.__getitem__ ds (idx + Z.of_nat (ADNIDataset.__len__ ds)) s).
Proof.
  unfold ADNIDataset.__len__, ADNIDataset.__getitem__. split.
  - intros Hr. by rewrite getitem_out_of_range.
  - intros Hr Hl. rewrite (getitem_negative (ADNIDataset.images ds)) by done.
    rewrite (getitem_negative (ADNIDataset.labels ds)) by (rewrite Hl; done).
    by rewrite Hl.
Qed.

End DatasetClaims.

Section DatasetRuns.
#[local] Existing Instance Sample.creation_order.

Lemma dataset_order_and_labels_witness :
  fst (ADNIDataset.__init__ (H := Sample.nearest) Sample.data "train" None
         Sample.processed) = Ok Sample.two /\
  exists ad nc,
    ADNIDataset.images Sample.two =
      (join Sample.AD_processed <$> ad) ++ (join Sample.NC_processed <$> nc) /\
    ADNIDataset.__len__ Sample.two = (length ad + length nc)%nat /\
    ADNIDataset.labels Sample.two !! 0%nat = Some 1.
Proof.
  assert (fst (ADNIDataset.__init__ (H := Sample.nearest) Sample.data "train" None
                 Sample.processed) = Ok Sample.two) as Hinit
    by (vm_compute; reflexivity).
  split; [exact Hinit|].
  destruct (@dataset_order_and_labels Sample.nearest _ _ _ _ _ _ _ (run_eq _ _ Hinit))
    as (ad & nc & _ & _ & Ea & En & Ei & Hl & _).
  exists ad, nc. split; [|split; [exact Hl|reflexivity]].
  rewrite Ei, Ea, En. reflexivity.
Defined.

(** C8 as the specification states it does not hold: on a dataset of two
    samples the index -1 is outside 0..1, and the access returns the last
    sample. *)
Lemma negative_index_counterexample :
  ADNIDataset.__len__ Sample.two = 2%nat /\
  ADNIDataset.__getitem__ Sample.two (-1) Sample.processed = Ok ([[7]], 0).
Proof. split; vm_compute; reflexivity. Qed.

Lemma getitem_index_error_witness :
  Z.of_nat (ADNIDataset.__len__ Sample.two) <= 2 /\
  ADNIDataset.__getitem__ Sample.two 2 Sample.processed = Raise IndexError /\
  ADNIDataset.__getitem__ Sample.two (-2) Sample.processed =
    ADNIDataset.__getitem__ Sample.two (-2 + 2) Sample.processed.
Proof.
  assert (Z.of_nat (ADNIDataset.__len__ Sample.two) <= 2) as Hge
    by (vm_compute; discriminate).
  split; [exact Hge|]. split.
  - exact (proj1 (getitem_index_error Sample.two 2 Sample.processed) (or_intror Hge)).
  - apply (proj2 (getitem_index_error Sample.two (-2) Sample.processed)).
    + vm_compute. split; [discriminate|reflexivity].
    + reflexivity.
Defined.

End DatasetRuns.

(** ** Claims on preprocessing *)

Section PreprocessClaims.
Context `{Cv2} `{Listing}.
Implicit Types (s : fs) (img : image) (p : path).

(** C4, amended.  An image in which thresholding finds no foreground
    pixel makes [_process_image] fail and write nothing; the crop step
    itself returns a zero-size crop, and the exception is OpenCV's own,
    raised when that crop is resized. *)
Theorem all_background_image_fails input_path output_path s img :
  s !! input_path = Some (File (Some img)) ->
  cv2.findNonZero (snd (cv2.threshold img)) = None ->
  (forall r c : nat, cv2.is_foreground img r c = false) /\
  ADNIDataset._crop_brain_region (Some img) = Ok [] /\
  cv2.resize [] (210, 210)%nat = Raise cv2_error /\
  ADNIDataset._process_image input_path output_path s = (Raise cv2_error, s).
Proof.
  intros Hin Hnone. pose proof (proj1 (mask_empty img) Hnone) as Hbg.
  split; [done|]. split; [by apply crop_brain_region_background|].
  split; [done|]. by eapply process_image_background.
Qed.

(** C7.  For a scan with a nonempty foreground, read from
    [input_path] into an existing output directory, [_process_image]
    writes at [output_path] the image obtained by cropping the scan
    itself to the minimal bounding box of its thresholded foreground and
    resizing the crop by cubic interpolation; the written image has 210
    rows of 210 pixels whatever the size of the scan. *)
Theorem process_image_crops_and_resizes input_path output_path s img :
  s !! input_path = Some (File (Some img)) ->
  rectangular img ->
  (exists r c : nat, cv2.is_foreground img r c = true) ->
  os.isdir (dirname output_path) s = true ->
  os.isdir output_path s = false ->
  exists (x y w h : nat) cropped resized s',
    cv2.boundingRect (cv2.findNonZero (snd (cv2.threshold img))) = (x, y, w, h) /\
    cv2.bounding_box img x y w h /\
    ADNIDataset._crop_brain_region (Some img) = Ok cropped /\
    height cropped = h /\ Forall (fun row => length row = w) cropped /\
    (forall i j : nat, (i < h)%nat -> (j < w)%nat ->
       pixel cropped i j = pixel img (y + i) (x + j)) /\
    cv2.resize cropped (210, 210)%nat = Ok resized /\
    height resized = 210%nat /\ Forall (fun row => length row = 210%nat) resized /\
    (forall r c : nat, (r < 210)%nat -> (c < 210)%nat ->
       pixel resized r c = Some (cubic cropped 210 210 r c)) /\
    ADNIDataset._process_image input_path output_path s = (Ok tt, s') /\
    s' = <[output_path := File (Some resized)]> (os.link output_path s) /\
    s' !! output_path = Some (File (Some resized)).
Proof.
  intros Hin Hrect Hfg Hdir Hout.
  destruct (crop_brain_region_foreground img Hrect Hfg)
    as (x & y & w & h & cropped & Ebox & Hbox & Ecrop & Hh & Hw & Hpix & Hne).
  destruct (resize_spec cropped 210 210 Hne) as (resized & Eres & Rh & Rw & Rpix & Rne);
    [lia..|].
  exists x, y, w, h, cropped, resized. eexists.
  do 10 (split; [done|]). split.
  { by eapply process_image_foreground. }
  split; [done|]. by rewrite lookup_insert_eq.
Qed.

End PreprocessClaims.

Section SkipClaims.
Context `{Cv2} `{Listing}.
Implicit Types (s : fs) (p : path).

Lemma sibling_untouched (root1 : path) (a b : string) p :
  a <> b ->
  p = join root1 a \/ (exists f, p = join (join root1 a) f) ->
  ~ touched (join root1 b) p.
Proof.
  intros Hab Hp [Ht|[Ht|[g Ht]]]; rewrite ?dirname_join in Ht;
    destruct Hp as [->|[f ->]].
  - by apply join_ne_self in Ht.
  - apply (f_equal length) in Ht. rewrite !length_join in Ht. lia.
  - by apply join_inj in Ht as [_ ?].
  - apply (f_equal length) in Ht. rewrite !length_join in Ht. lia.
  - apply (f_equal length) in Ht. rewrite !length_join in Ht. lia.
  - apply join_inj in Ht as [Ht _]. by apply join_inj in Ht as [_ ?].
Qed.

(** C6.  When the processed directory of a class exists,
    whatever it holds, [preprocess_images] does for that class nothing at
    all: the run is the run of the other class's block alone, and the
    directory and every entry of it are left as they were; when both
    exist the filesystem is not changed. *)
Theorem existing_processed_directory_is_skipped root0 split s :
  let self := ADNIDataset.fresh root0 split in
  (os.exists_ (ADNIDataset.ad_processed_dir self) s = true ->
     ADNIDataset.preprocess_images self s =
       ADNIDataset.preprocess_block (ADNIDataset.nc_dir self)
         (ADNIDataset.nc_processed_dir self) s /\
     forall p, p = ADNIDataset.ad_processed_dir self \/
               (exists f, p = join (ADNIDataset.ad_processed_dir self) f) ->
       snd (ADNIDataset.preprocess_images self s) !! p = s !! p) /\
  (os.exists_ (ADNIDataset.nc_processed_dir self) s = true ->
     ADNIDataset.preprocess_images self s =
       ADNIDataset.preprocess_block (ADNIDataset.ad_dir self)
         (ADNIDataset.ad_processed_dir self) s /\
     forall p, p = ADNIDataset.nc_processed_dir self \/
               (exists f, p = join (ADNIDataset.nc_processed_dir self) f) ->
       snd (ADNIDataset.preprocess_images self s) !! p = s !! p) /\
  (os.exists_ (ADNIDataset.ad_processed_dir self) s = true ->
   os.exists_ (ADNIDataset.nc_processed_dir self) s = true ->
     ADNIDataset.preprocess_images self s = (Ok tt, s)).
Proof.
  intros self. unfold ADNIDataset.preprocess_images, bind.
  set (adp := ADNIDataset.ad_processed_dir self).
  set (ncp := ADNIDataset.nc_processed_dir self).
  split; [|split].
  - intros Had. rewrite (preprocess_block_skip _ adp s Had). split; [done|].
    intros p Hp.
    destruct (ADNIDataset.preprocess_block (ADNIDataset.nc_dir self) ncp s)
      as [r s'] eqn:Enc.
    apply preprocess_block_step in Enc as [[_ Hframe] _]. simpl.
    apply Hframe. by apply (sibling_untouched _ "AD_processed" "NC_processed").
  - intros Hnc.
    destruct (ADNIDataset.preprocess_block (ADNIDataset.ad_dir self) adp s)
      as [r s'] eqn:Ead.
    pose proof Ead as [Hstep _]%preprocess_block_step.
    assert (Hgoal : match r with
                    | Ok _ => ADNIDataset.preprocess_block (ADNIDataset.nc_dir self) ncp s'
                    | Raise e => (Raise e, s')
                    end = (r, s')).
    { destruct r as [[]|e]; [|done].
      apply preprocess_block_skip. by eapply step_exists. }
    rewrite Hgoal. split; [done|].
    intros p Hp. simpl. destruct Hstep as [_ Hframe].
    apply Hframe. by apply (sibling_untouched _ "NC_processed" "AD_processed").
  - intros Had Hnc. rewrite (preprocess_block_skip _ adp s Had).
    by apply preprocess_block_skip.
Qed.


End SkipClaims.

(** *** Runs on concrete inputs *)

Section PreprocessRuns.
#[local] Existing Instance Sample.creation_order.

Lemma all_background_image_fails_witness :
  Sample.dark !! join Sample.AD "z.png" = Some (File (Some Sample.black)) /\
  cv2.findNonZero (snd (cv2.threshold (H := Sample.nearest) Sample.black)) = None /\
  ADNIDataset._process_image (H := Sample.nearest)
    (join Sample.AD "z.png") (join Sample.AD_processed "z.png") Sample.dark
    = (Raise cv2_error, Sample.dark).
Proof.
  assert (Sample.dark !! join Sample.AD "z.png" = Some (File (Some Sample.black)))
    as Hin by (vm_compute; reflexivity).
  assert (cv2.findNonZero (snd (cv2.threshold (H := Sample.nearest) Sample.black)) = None)
    as Hnone by (vm_compute; reflexivity).
  split; [exact Hin|]. split; [exact Hnone|].
  apply (@all_background_image_fails Sample.nearest _ _ _ _ _ Hin Hnone).
Defined.

(** C4 as the specification states it does not hold: on an all-black scan
    the crop step returns a zero-size crop without failing, and what
    [_process_image] raises is the [cv2.error] of the resize. *)
Lemma empty_foreground_counterexample :
  ADNIDataset._crop_brain_region (H := Sample.nearest) (Some Sample.black) = Ok [] /\
  fst (ADNIDataset._process_image (H := Sample.nearest)
         (join Sample.AD "z.png") (join Sample.AD_processed "z.png") Sample.dark)
    = Raise cv2_error.
Proof. split; vm_compute; reflexivity. Qed.

Lemma process_image_crops_and_resizes_witness :
  Sample.ready !! join Sample.AD "a.png" = Some (File (Some Sample.bright)) /\
  rectangular Sample.bright /\
  cv2.is_foreground (H := Sample.nearest) Sample.bright 1 1 = true /\
  os.isdir (dirname (join Sample.AD_processed "a.png")) Sample.ready = true /\
  os.isdir (join Sample.AD_processed "a.png") Sample.ready = false /\
  exists resized s',
    ADNIDataset._process_image (H := Sample.nearest)
      (join Sample.AD "a.png") (join Sample.AD_processed "a.png") Sample.ready
      = (Ok tt, s') /\
    s' !! join Sample.AD_processed "a.png" = Some (File (Some resized)) /\
    height resized = 210%nat /\ Forall (fun row => length row = 210%nat) resized.
Proof.
  assert (Sample.ready !! join Sample.AD "a.png" = Some (File (Some Sample.bright)))
    as Hin by (vm_compute; reflexivity).
  assert (rectangular Sample.bright) as Hrect by (repeat constructor).
  assert (cv2.is_foreground (H := Sample.nearest) Sample.bright 1 1 = true)
    as Hfg by (vm_compute; reflexivity).
  assert (os.isdir (dirname (join Sample.AD_processed "a.png")) Sample.ready = true)
    as Hdir by (vm_compute; reflexivity).
  assert (os.isdir (join Sample.AD_processed "a.png") Sample.ready = false)
    as Hout by (vm_compute; reflexivity).
  do 5 (split; [assumption|]).
  destruct (@process_image_crops_and_resizes Sample.nearest _ _ _ _ _ Hin Hrect
              (ex_intro _ 1%nat (ex_intro _ 1%nat Hfg)) Hdir Hout)
    as (x & y & w & h & cropped & resized & s' & _ & _ & _ & _ & _ & _ & _
        & Rh & Rw & _ & Erun & _ & Eout).
  exists resized, s'. by repeat split.
Defined.

(** The box of the 4 x 4 scan is rows 1-2, columns 1-2, and the crop is
    taken from the scan, not from the mask. *)
Example bright_crop :
  cv2.boundingRect (cv2.findNonZero (snd (cv2.threshold (H := Sample.nearest) Sample.bright)))
    = (1, 1, 2, 2)%nat /\
  ADNIDataset._crop_brain_region (H := Sample.nearest) (Some Sample.bright)
    = Ok [[5; 9]; [7; 0]].
Proof. split; vm_compute; reflexivity. Qed.

Lemma existing_processed_directory_is_skipped_witness :
  os.exists_ Sample.AD_processed Sample.stale = true /\
  os.exists_ Sample.NC_processed Sample.stale = true /\
  ADNIDataset.preprocess_images (H := Sample.nearest)
    (ADNIDataset.fresh Sample.data "train") Sample.stale = (Ok tt, Sample.stale).
Proof.
  assert (os.exists_ Sample.AD_processed Sample.stale = true)
    as Had by (vm_compute; reflexivity).
  assert (os.exists_ Sample.NC_processed Sample.stale = true)
    as Hnc by (vm_compute; reflexivity).
  split; [exact Had|]. split; [exact Hnc|].
  exact (proj2 (proj2 (@existing_processed_directory_is_skipped Sample.nearest _
                         Sample.data "train" Sample.stale)) Had Hnc).
Defined.


(** The failed construction on [no_AD] is never repaired: the next one
    succeeds and presents the empty AD_processed directory as the
    positive class. *)
Example failed_run_is_never_repaired :
  fst (ADNIDataset.__init__ (H := Sample.nearest) Sample.data "train" None
         Sample.no_AD) = Raise FileNotFoundError /\
  fst (ADNIDataset.__init__ (H := Sample.nearest) Sample.data "train" None
         (snd (ADNIDataset.__init__ (H := Sample.nearest) Sample.data "train" None
                 Sample.no_AD)))
    = Ok (Sample.sample_dataset [] ["c.jpeg"]%string).
Proof. split; vm_compute; reflexivity. Qed.

(** A scan that cannot be decoded aborts the batch after the first image;
    the next construction does not return to AD, processes NC, and presents
    the one image written as the whole positive class. *)
Example partial_output_is_taken_as_complete :
  fst (ADNIDataset.__init__ (H := Sample.nearest) Sample.data "train" None
         Sample.corrupt) = Raise cv2_error /\
  snd (ADNIDataset.__init__ (H := Sample.nearest) Sample.data "train" None
         Sample.corrupt) !! Sample.AD_processed = Some (Dir ["a.png"]%string) /\
  fst (ADNIDataset.__init__ (H := Sample.nearest) Sample.data "train" None
         (snd (ADNIDataset.__init__ (H := Sample.nearest) Sample.data "train" None
                 Sample.corrupt)))
    = Ok (Sample.sample_dataset ["a.png"]%string ["c.jpeg"]%string).
Proof. repeat split; vm_compute; reflexivity. Qed.

(** A first construction over the raw scans processes the two images of
    AD and the one of NC, and skips the text file. *)
Example first_construction :
  fst (ADNIDataset.__init__ (H := Sample.nearest) Sample.data "train" None Sample.raw)
    = Ok (Sample.sample_dataset ["a.png"; "B.JPG"]%string ["c.jpeg"]%string).
Proof. vm_compute. reflexivity. Qed.

(** The order of the samples within a class is the order of
    [os.listdir]: where the newest entry is listed first, the same
    construction presents the AD scans the other way round. *)
Example first_construction_newest_first :
  fst (ADNIDataset.__init__ (H := Sample.nearest) (H0 := Sample.newest_first)
         Sample.data "train" None Sample.raw)
    = Ok (Sample.sample_dataset ["B.JPG"; "a.png"]%string ["c.jpeg"]%string).
Proof. vm_compute. reflexivity. Qed.

End PreprocessRuns.

(* ===================================================================== *)
(** * Part III. Further properties of the loader                          *)
(* ===================================================================== *)

(** ** Loops over a listing *)

Section ForEach.
Context {A : Type}.
Implicit Types (l : list A) (body : A -> M unit) (s : fs).

Lemma for_each_app l1 l2 body s :
  for_each (l1 ++ l2) body s =
    match for_each l1 body s with
    | (Ok _, s1) => for_each l2 body s1
    | (Raise e, s1) => (Raise e, s1)
    end.
Proof.
  revert s. induction l1 as [|x l1 IH]; intros s; simpl; [done|].
  unfold bind. destruct (body x s) as [[[]|e] s1]; [apply IH|done].
Qed.

Lemma for_each_filter (P : A -> bool) l body s :
  for_each l (fun x => if P x then body x else ret tt) s =
  for_each (List.filter P l) body s.
Proof.
  revert s. induction l as [|x l IH]; intros s; simpl; [done|].
  destruct (P x); simpl; unfold bind.
  - by destruct (body x s) as [[[]|e] s1].
  - apply IH.
Qed.
End ForEach.

Section DirectoryLoop.
Context `{Cv2} `{Listing}.
Implicit Types (inp out p : path) (s : fs) (f : string) (names acc : list string).

Lemma process_directory_entries inp out s :
  ADNIDataset._process_directory inp out s =
    match s !! inp with
    | Some (Dir names) => for_each names (process_entry inp out) s
    | Some (File _) => (Raise NotADirectoryError, s)
    | None => (Raise FileNotFoundError, s)
    end.
Proof.
  unfold ADNIDataset._process_directory, bind at 1, os.listdir.
  by destruct (s !! inp) as [[names|c]|].
Qed.

Lemma process_image_undecodable inp out s :
  (forall img, s !! inp <> Some (File (Some img))) ->
  ADNIDataset._process_image inp out s = (Raise cv2_error, s).
Proof.
  intros Hbad. unfold ADNIDataset._process_image, bind, cv2_io.imread, lift.
  destruct (s !! inp) as [[names|[img|]]|] eqn:E; try done. by destruct (Hbad img).
Qed.

Lemma processed_image_ok (img : image) :
  processable img ->
  exists img', processed_image img = Ok img' /\ square 210 img' /\ empty img' = false.
Proof.
  intros [Hrect Hfg].
  destruct (crop_brain_region_foreground img Hrect Hfg)
    as (x & y & w & h & cropped & _ & _ & Ecrop & _ & _ & _ & Hne).
  destruct (resize_spec cropped 210 210 Hne) as (img' & Eres & Rh & Rw & _ & Rne);
    [lia..|].
  exists img'. unfold processed_image. rewrite Ecrop. by repeat split.
Qed.

Lemma link_entry out f acc s :
  s !! out = Some (Dir acc) -> f ∉ acc ->
  os.link (join out f) s = <[out := Dir (place acc f)]> s.
Proof.
  intros Hout Hf. unfold os.link, join at 1. rewrite last_snoc, dirname_join, Hout.
  by rewrite bool_decide_eq_false_2.
Qed.

Lemma process_entry_image inp out f s acc (img : image) :
  is_image_name f = true ->
  s !! join inp f = Some (File (Some img)) -> processable img ->
  s !! out = Some (Dir acc) -> f ∉ acc ->
  os.isdir (join out f) s = false ->
  exists img', processed_image img = Ok img' /\ square 210 img' /\
    process_entry inp out f s =
      (Ok tt, <[join out f := File (Some img')]> (<[out := Dir (place acc f)]> s)).
Proof.
  intros Hname Hin Hgood Hout Hf Hnd.
  destruct (processed_image_ok img Hgood) as (img' & Eimg & Hsq & Hne).
  exists img'. split; [done|]. split; [done|].
  unfold process_entry. rewrite Hname.
  unfold processed_image in Eimg.
  destruct (ADNIDataset._crop_brain_region (Some img)) as [cropped|] eqn:Ecrop; [|done].
  rewrite (process_image_foreground _ _ s img cropped img' Hin Ecrop Eimg Hne).
  - by rewrite (link_entry out f acc).
  - unfold os.isdir. by rewrite dirname_join, Hout.
  - done.
Qed.

Context `{!ListingSpec}.

(** The loop of [_process_directory] over names whose scans are all
    processable, into a directory that lists [acc]. *)
Lemma process_entries_ok inp out names :
  inp <> out -> (forall f, join inp f <> out) ->
  forall s acc,
    NoDup names ->
    (forall f, f ∈ names -> f ∉ acc) ->
    s !! out = Some (Dir acc) ->
    (forall f, f ∈ names -> is_image_name f = true ->
       (exists img, s !! join inp f = Some (File (Some img)) /\ processable img) /\
       os.isdir (join out f) s = false) ->
    exists s' listing,
      for_each names (process_entry inp out) s = (Ok tt, s') /\
      s' !! out = Some (Dir listing) /\
      listing ≡ₚ acc ++ List.filter is_image_name names /\
      (forall f img, f ∈ names -> is_image_name f = true ->
         s !! join inp f = Some (File (Some img)) ->
         exists img', processed_image img = Ok img' /\ square 210 img' /\
           s' !! join out f = Some (File (Some img'))) /\
      (forall p, p <> out ->
         (forall f, f ∈ names -> is_image_name f = true -> p <> join out f) ->
         s' !! p = s !! p).
Proof.
  intros Hio Hnest. induction names as [|f rest IH]; intros s acc Hnd Hacc Hout Hgood.
  { exists s, acc. simpl. rewrite app_nil_r. split; [done|]. split; [done|].
    split; [done|]. split; [|done]. intros f img Hf. by apply elem_of_nil in Hf. }
  apply NoDup_cons in Hnd as [Hf Hnd]. simpl.
  assert (Hhere : f ∈ f :: rest) by left.
  assert (Hthere : forall g, g ∈ rest -> g ∈ f :: rest) by (intros g Hg; by right).
  destruct (is_image_name f) eqn:Hname.
  - destruct (Hgood f Hhere Hname) as [(img & Hin & Himg) Hdir].
    destruct (process_entry_image inp out f s acc img Hname Hin Himg Hout
                (Hacc f Hhere) Hdir) as (img' & Eimg & Hsq & Erun).
    set (s1 := <[join out f := File (Some img')]> (<[out := Dir (place acc f)]> s)) in *.
    assert (Hs1 : forall p, p <> out -> p <> join out f -> s1 !! p = s !! p).
    { intros p Hp1 Hp2. subst s1. by rewrite !lookup_insert_ne. }
    destruct (IH s1 (place acc f)) as (s' & listing & Erest & Hlist & Hperm & Hfiles & Hframe).
    + done.
    + intros g Hg Hg'. rewrite place_perm in Hg'.
      apply elem_of_app in Hg' as [Hga|Hgf%list_elem_of_singleton].
      * by apply (Hacc g (Hthere g Hg)).
      * by subst g.
    + subst s1. rewrite lookup_insert_ne by apply join_ne_self.
      by rewrite lookup_insert_eq.
    + intros g Hg Hgname.
      destruct (Hgood g (Hthere g Hg) Hgname) as [(img0 & Hin0 & Himg0) Hdir0].
      assert (g <> f) by (by intros ->).
      split.
      * exists img0. split; [|done]. rewrite Hs1; [done|apply Hnest|].
        intros [? _]%join_inj. done.
      * unfold os.isdir in *. rewrite Hs1; [done|apply join_ne_self|].
        by intros [_ ?]%join_inj.
    + exists s', listing. unfold bind at 1. rewrite Erun. split; [done|].
      split; [done|]. split; [by rewrite Hperm, place_perm, <-app_assoc|]. split.
      * intros g img0 [->|Hg]%elem_of_cons Hgname Hin0.
        -- rewrite Hin in Hin0. injection Hin0 as <-.
           exists img'. split; [done|]. split; [done|].
           rewrite Hframe.
           ++ subst s1. by rewrite lookup_insert_eq.
           ++ apply join_ne_self.
           ++ intros g Hg _ [_ <-]%join_inj. done.
        -- assert (g <> f) by (by intros ->).
           apply Hfiles; [done..|].
           rewrite Hs1; [done|apply Hnest|]. by intros [? _]%join_inj.
      * intros p Hp Hnames. rewrite Hframe.
        -- apply Hs1; [done|]. by apply Hnames; [left|].
        -- done.
        -- intros g Hg Hgname. apply Hnames; [by right|done].
  - destruct (IH s acc) as (s' & listing & Erest & Hlist & Hperm & Hfiles & Hframe);
      try done.
    + intros g Hg. apply Hacc. by right.
    + intros g Hg. apply Hgood. by right.
    + exists s', listing. unfold process_entry at 1. rewrite Hname.
      unfold bind at 1, ret at 1.
      split; [done|]. split; [done|]. split; [done|]. split.
      * intros g img0 [->|Hg]%elem_of_cons Hgname Hin0; [congruence|by apply Hfiles].
      * intros p Hp Hnames. apply Hframe; [done|].
        intros g Hg. apply Hnames. by right.
Qed.
End DirectoryLoop.

Section BlockRun.
Context `{Cv2} `{Listing}.
Implicit Types (parent p : path) (s : fs) (a b f : string) (names : list string).

Lemma sibling_facts parent a b f g :
  a <> b ->
  join parent a <> join parent b /\
  join (join parent a) f <> join parent b /\
  join parent a <> parent /\
  join (join parent a) f <> parent /\
  join (join parent a) f <> join (join parent b) g /\
  join parent a <> join (join parent b) g.
Proof.
  intros Hab. repeat split.
  - by intros [_ ?]%join_inj.
  - intros E%(f_equal length). rewrite !length_join in E. lia.
  - apply join_ne_self.
  - intros E%(f_equal length). rewrite !length_join in E. lia.
  - intros [[_ ?]%join_inj _]%join_inj. done.
  - intros E%(f_equal length). rewrite !length_join in E. lia.
Qed.

Lemma link_isdir q p s :
  os.isdir p s = true -> os.isdir p (os.link q s) = true.
Proof.
  unfold os.isdir, os.link. intros Hp.
  destruct (last q) as [name|]; [|done].
  destruct (s !! dirname q) as [[names|c]|] eqn:E; try done.
  case_bool_decide; [done|].
  destruct (decide (dirname q = p)) as [<-|Hne].
  - by rewrite lookup_insert_eq.
  - by rewrite lookup_insert_ne.
Qed.

Context `{!ListingSpec}.

(** A block of [preprocess_images] on a class that is ready: it returns,
    the output directory lists the image names of the input listing, in
    some order, each output file is the processed input, and nothing
    changes but the output directory, its files and the listing of the
    parent. *)
Lemma preprocess_block_ok parent a b names s :
  a <> b ->
  ready_for (join parent a) (join parent b) names s ->
  exists s' listing,
    ADNIDataset.preprocess_block (join parent a) (join parent b) s = (Ok tt, s') /\
    s' !! join parent b = Some (Dir listing) /\
    listing ≡ₚ List.filter is_image_name names /\
    os.isdir parent s' = true /\
    (forall f img, f ∈ names -> is_image_name f = true ->
       s !! join (join parent a) f = Some (File (Some img)) ->
       exists img', processed_image img = Ok img' /\ square 210 img' /\
         s' !! join (join parent b) f = Some (File (Some img'))) /\
    (forall p, p <> parent -> p <> join parent b ->
       (forall f, f ∈ names -> is_image_name f = true -> p <> join (join parent b) f) ->
       s' !! p = s !! p).
Proof.
  intros Hab (Hpar & Hinp & Hnd & Hex & Hgood). rewrite dirname_join in Hpar.
  set (inp := join parent a) in *. set (out := join parent b) in *.
  destruct (preprocess_block_create inp out s Hex) as (s0 & Em & _ & ->).
  assert (Es0 : s0 = <[out := Dir []]> (os.link out s)).
  { unfold os.makedirs in Em. rewrite Hex in Em. by injection Em as <-. }
  assert (Hs0 : forall p, p <> parent -> p <> out -> s0 !! p = s !! p).
  { intros p Hp1 Hp2. rewrite Es0, lookup_insert_ne by done.
    apply link_other. subst out. by rewrite dirname_join. }
  assert (Hio : inp <> out) by apply (sibling_facts parent a b "" "" Hab).
  assert (Hnest : forall f, join inp f <> out)
    by (intros f; apply (sibling_facts parent a b f "" Hab)).
  rewrite process_directory_entries.
  rewrite (Hs0 inp); [|apply join_ne_self|done]. rewrite Hinp.
  destruct (process_entries_ok inp out names Hio Hnest s0 [])
    as (s' & listing & Erun & Hlist & Hperm & Hfiles & Hframe).
  - done.
  - intros f _ Hf. by apply elem_of_nil in Hf.
  - by rewrite Es0, lookup_insert_eq.
  - intros f Hf Hname. destruct (Hgood f Hf Hname) as [(img & Hin & Himg) Hdir].
    split.
    + exists img. split; [|done]. rewrite Hs0; [done| |apply Hnest].
      apply (sibling_facts parent a b f "" Hab).
    + unfold os.isdir in *. rewrite Hs0; [done| |apply join_ne_self].
      apply (sibling_facts parent b a f "" (not_eq_sym Hab)).
  - exists s', listing. split; [done|]. split; [done|]. split; [done|]. split; [|split].
    + unfold os.isdir. rewrite Hframe.
      * rewrite Es0, lookup_insert_ne by apply join_ne_self.
        apply (link_isdir out parent s Hpar).
      * apply not_eq_sym, join_ne_self.
      * intros f _ _ E%(f_equal length). subst out. rewrite !length_join in E. lia.
    + intros f img Hf Hname Hin. apply Hfiles; [done..|].
      rewrite Hs0; [done| |apply Hnest]. apply (sibling_facts parent a b f "" Hab).
    + intros p Hp1 Hp2 Hp3. rewrite Hframe by done. by apply Hs0.
Qed.
End BlockRun.

Section Construction.
Context `{Cv2} `{Listing}.
Implicit Types (p : path) (s : fs) (f : string) (names : list string).

Lemma getitem_at (ds : ADNIDataset.t) (i : nat) p (l : Z) s :
  ADNIDataset.images ds !! i = Some p -> ADNIDataset.labels ds !! i = Some l ->
  ADNIDataset.__getitem__ ds (Z.of_nat i) s =
    match PIL.open_L p s with
    | Ok img => Ok (default id (ADNIDataset.transform ds) img, l)
    | Raise e => Raise e
    end.
Proof.
  intros Hp Hl. unfold ADNIDataset.__getitem__.
  rewrite !getitem_nonneg by lia. rewrite Nat2Z.id, Hp, Hl.
  destruct (PIL.open_L p s); [|done]. by destruct (ADNIDataset.transform ds).
Qed.

Lemma ready_for_frame parent a b names s s' :
  ready_for (join parent a) (join parent b) names s ->
  os.isdir parent s' = true ->
  (forall p, p = join parent a \/ p = join parent b \/
             (exists f, p = join (join parent a) f) \/
             (exists f, p = join (join parent b) f) -> s' !! p = s !! p) ->
  ready_for (join parent a) (join parent b) names s'.
Proof.
  intros (_ & Hinp & Hnd & Hex & Hgood) Hpar Hsame.
  split; [by rewrite dirname_join|]. split; [|split; [done|split]].
  - rewrite Hsame; [done|by left].
  - apply exists_false. rewrite Hsame; [by apply exists_false|]. right. by left.
  - intros f Hf Hname. destruct (Hgood f Hf Hname) as [(img & Hin & Himg) Hdir]. split.
    + exists img. split; [|done]. rewrite Hsame; [done|]. right. right. left. by exists f.
    + unfold os.isdir in *. rewrite Hsame; [done|]. right. right. right. by exists f.
Qed.

Context `{!ListingSpec}.

(** Both blocks on two ready classes. *)
Lemma preprocess_images_ok root0 split adn ncn s :
  let self := ADNIDataset.fresh root0 split in
  ready_for (ADNIDataset.ad_dir self) (ADNIDataset.ad_processed_dir self) adn s ->
  ready_for (ADNIDataset.nc_dir self) (ADNIDataset.nc_processed_dir self) ncn s ->
  exists s' adl ncl,
    ADNIDataset.preprocess_images self s = (Ok tt, s') /\
    s' !! ADNIDataset.ad_processed_dir self = Some (Dir adl) /\
    adl ≡ₚ List.filter is_image_name adn /\
    s' !! ADNIDataset.nc_processed_dir self = Some (Dir ncl) /\
    ncl ≡ₚ List.filter is_image_name ncn /\
    (forall f img, f ∈ adn -> is_image_name f = true ->
       s !! join (ADNIDataset.ad_dir self) f = Some (File (Some img)) ->
       exists img', processed_image img = Ok img' /\ square 210 img' /\
         s' !! join (ADNIDataset.ad_processed_dir self) f = Some (File (Some img'))) /\
    (forall f img, f ∈ ncn -> is_image_name f = true ->
       s !! join (ADNIDataset.nc_dir self) f = Some (File (Some img)) ->
       exists img', processed_image img = Ok img' /\ square 210 img' /\
         s' !! join (ADNIDataset.nc_processed_dir self) f = Some (File (Some img'))).
Proof.
  intros self Had Hnc. simpl in Had, Hnc |- *.
  set (parent := join root0 split) in *.
  destruct (preprocess_block_ok parent "AD" "AD_processed" adn s ltac:(done) Had)
    as (s1 & adl & E1 & L1 & P1 & D1 & F1 & K1).
  assert (Hnc1 : ready_for (join parent "NC") (join parent "NC_processed") ncn s1).
  { apply (ready_for_frame _ _ _ _ s); [done|done|].
    intros p Hp. apply K1.
    - destruct Hp as [->|[->|[[f ->]|[f ->]]]];
        first [apply join_ne_self
              |intros E%(f_equal length); rewrite !length_join in E; lia].
    - destruct Hp as [->|[->|[[f ->]|[f ->]]]];
        first [by intros [_ ?]%join_inj
              |intros E%(f_equal length); rewrite !length_join in E; lia].
    - intros g _ _.
      destruct Hp as [->|[->|[[f ->]|[f ->]]]];
        first [by intros [[_ ?]%join_inj _]%join_inj
              |intros E%(f_equal length); rewrite !length_join in E; lia]. }
  destruct (preprocess_block_ok parent "NC" "NC_processed" ncn s1 ltac:(done) Hnc1)
    as (s2 & ncl & E2 & L2 & P2 & _ & F2 & K2).
  assert (Hkeep : forall p, p = join parent "AD_processed" \/
                            (exists f, p = join (join parent "AD_processed") f) ->
                            s2 !! p = s1 !! p).
  { intros p Hp. apply K2.
    - destruct Hp as [->|[f ->]];
        first [apply join_ne_self
              |intros E%(f_equal length); rewrite !length_join in E; lia].
    - destruct Hp as [->|[f ->]];
        first [by intros [_ ?]%join_inj
              |intros E%(f_equal length); rewrite !length_join in E; lia].
    - intros g _ _. destruct Hp as [->|[f ->]];
        first [by intros [[_ ?]%join_inj _]%join_inj
              |intros E%(f_equal length); rewrite !length_join in E; lia]. }
  exists s2, adl, ncl. split.
  { unfold ADNIDataset.preprocess_images, bind. simpl. fold parent. by rewrite E1. }
  split; [rewrite Hkeep; [done|by left]|]. split; [done|]. split; [done|].
  split; [done|]. split.
  - intros f img Hf Hname Hin. destruct (F1 f img Hf Hname Hin) as (img' & ? & ? & Hout).
    exists img'. split; [done|]. split; [done|]. rewrite Hkeep; [done|]. right. by exists f.
  - intros f img Hf Hname Hin. apply F2; [done..|].
    rewrite K1; [done| | |].
    + intros E%(f_equal length). rewrite !length_join in E. lia.
    + intros E%(f_equal length). rewrite !length_join in E. lia.
    + intros g _ _. by intros [[_ ?]%join_inj _]%join_inj.
Qed.
End Construction.

Section MoreOnConstruction.
Context `{Cv2} `{Listing}.
Implicit Types (p : path) (s : fs) (f : string) (names : list string).

Lemma collect_state (self : ADNIDataset.t) tr s r s' :
  ADNIDataset.collect self tr s = (r, s') -> s' = s.
Proof.
  unfold ADNIDataset.collect, bind, os.listdir, ret.
  destruct (s !! ADNIDataset.ad_processed_dir self) as [[ad|?]|]; try by intros [= _ <-].
  destruct (s !! ADNIDataset.nc_processed_dir self) as [[nc|?]|]; by intros [= _ <-].
Qed.

Lemma preprocess_images_frame root0 split s r s' :
  ADNIDataset.preprocess_images (ADNIDataset.fresh root0 split) s = (r, s') ->
  keeps s s' /\
  forall p,
    ~ touched (join (join root0 split) "AD_processed") p ->
    ~ touched (join (join root0 split) "NC_processed") p ->
    s' !! p = s !! p.
Proof.
  unfold ADNIDataset.preprocess_images, bind. simpl.
  set (parent := join root0 split).
  destruct (ADNIDataset.preprocess_block (join parent "AD") (join parent "AD_processed") s)
    as [[[]|e] s1] eqn:E1.
  - intros E2.
    apply preprocess_block_step in E1 as [[K1 F1] _].
    apply preprocess_block_step in E2 as [[K2 F2] _]. split.
    + intros p Hp. by apply K2, K1.
    + intros p Hp1 Hp2. by rewrite F2, F1.
  - intros [= <- <-]. apply preprocess_block_step in E1 as [[K1 F1] _].
    split; [done|]. intros p Hp1 _. by apply F1.
Qed.

(** X2.  Where the directory of the split exists, then whatever
    [__init__] returns or raises, it deletes nothing and changes nothing
    but the two processed directories, the files directly in them and the
    listing of the directory of the split; in particular the raw AD and
    NC directories and every file in them are as they were. *)
Theorem construction_leaves_raw_data root0 split tr s :
  let self := ADNIDataset.fresh root0 split in
  let s' := snd (ADNIDataset.__init__ root0 split tr s) in
  os.isdir (ADNIDataset.root self) s = true ->
  keeps s s' /\
  (forall p,
     ~ touched (ADNIDataset.ad_processed_dir self) p ->
     ~ touched (ADNIDataset.nc_processed_dir self) p ->
     s' !! p = s !! p) /\
  (forall p,
     p = ADNIDataset.ad_dir self \/ p = ADNIDataset.nc_dir self \/
     (exists f, p = join (ADNIDataset.ad_dir self) f) \/
     (exists f, p = join (ADNIDataset.nc_dir self) f) ->
     s' !! p = s !! p).
Proof.
  intros self s' _.
  assert (Hrun : exists r, ADNIDataset.preprocess_images self s = (r, s')).
  { subst s'. unfold ADNIDataset.__init__, bind. fold self.
    destruct (ADNIDataset.preprocess_images self s) as [[[]|e] s1] eqn:E; [|by eexists].
    destruct (ADNIDataset.collect self tr s1) as [r2 s2] eqn:E2.
    apply collect_state in E2 as ->. by eexists. }
  destruct Hrun as [r Hrun]. apply preprocess_images_frame in Hrun as [Hk Hf].
  split; [done|]. split; [done|].
  intros p Hp. apply Hf; simpl.
  - destruct Hp as [->|[->|[[f ->]|[f ->]]]];
      first [by apply (sibling_untouched _ "AD" "AD_processed"); eauto
            |by apply (sibling_untouched _ "NC" "AD_processed"); eauto].
  - destruct Hp as [->|[->|[[f ->]|[f ->]]]];
      first [by apply (sibling_untouched _ "AD" "NC_processed"); eauto
            |by apply (sibling_untouched _ "NC" "NC_processed"); eauto].
Qed.

(** X3.  Construction is idempotent: after a construction that has
    returned, a further construction on the state it left writes nothing
    and returns the same dataset; with another transform it returns a
    dataset with the same paths and labels. *)
Theorem construction_is_idempotent root0 split tr s ds s' :
  ADNIDataset.__init__ root0 split tr s = (Ok ds, s') ->
  ADNIDataset.__init__ root0 split tr s' = (Ok ds, s') /\
  forall tr', exists ds',
    ADNIDataset.__init__ root0 split tr' s' = (Ok ds', s') /\
    ADNIDataset.images ds' = ADNIDataset.images ds /\
    ADNIDataset.labels ds' = ADNIDataset.labels ds /\
    ADNIDataset.transform ds' = tr'.
Proof.
  intros [_ Hc]%init_ok.
  pose proof Hc as (_ & ad & nc & Had & Hnc & Eds)%collect_ok.
  assert (Hskip : ADNIDataset.preprocess_images (ADNIDataset.fresh root0 split) s'
                  = (Ok tt, s')).
  { unfold ADNIDataset.preprocess_images, bind.
    rewrite preprocess_block_skip by (apply exists_true; by rewrite Had).
    apply preprocess_block_skip. apply exists_true. by rewrite Hnc. }
  assert (Hinit : forall tr0, ADNIDataset.__init__ root0 split tr0 s' =
                              ADNIDataset.collect (ADNIDataset.fresh root0 split) tr0 s').
  { intros tr0. unfold ADNIDataset.__init__, bind. by rewrite Hskip. }
  split; [by rewrite Hinit|].
  intros tr'. rewrite Hinit. unfold ADNIDataset.collect, bind, os.listdir, ret.
  rewrite Had, Hnc. eexists. split; [reflexivity|]. by rewrite Eds.
Qed.

(** X4.  [_process_directory] stops at the first entry that fails: when
    the entries before an image-named file have been processed and
    [cv2.imread] returns [None] for that file, the run raises [cv2.error]
    in the state those entries left; nothing listed after it is read or
    written, and nothing written before it is undone. *)
Theorem process_directory_stops_at_first_failure inp out s l1 f l2 s1 :
  s !! inp = Some (Dir (l1 ++ f :: l2)) ->
  for_each l1 (process_entry inp out) s = (Ok tt, s1) ->
  is_image_name f = true ->
  fst (cv2_io.imread (join inp f) s1) = Ok None ->
  ADNIDataset._process_directory inp out s = (Raise cv2_error, s1).
Proof.
  intros Hinp Hl1 Hname Hread.
  rewrite process_directory_entries, Hinp, for_each_app, Hl1. simpl.
  unfold bind, process_entry at 1. rewrite Hname.
  rewrite process_image_undecodable; [done|].
  intros img Himg. unfold cv2_io.imread in Hread. by rewrite Himg in Hread.
Qed.

(** X5.  [_process_directory] handles exactly the listed names that end,
    in any letter case, in .png, .jpg or .jpeg, in listing order; any other
    entry is neither read nor written.  A directory without such a name is
    processed without any effect, whatever its files hold. *)
Theorem process_directory_skips_other_files inp out s names :
  s !! inp = Some (Dir names) ->
  ADNIDataset._process_directory inp out s =
    for_each (List.filter is_image_name names)
      (fun f => ADNIDataset._process_image (join inp f) (join out f)) s /\
  (List.filter is_image_name names = [] ->
   ADNIDataset._process_directory inp out s = (Ok tt, s)).
Proof.
  intros Hinp.
  assert (E : ADNIDataset._process_directory inp out s =
    for_each (List.filter is_image_name names)
      (fun f => ADNIDataset._process_image (join inp f) (join out f)) s).
  { rewrite process_directory_entries, Hinp. apply for_each_filter. }
  split; [done|]. intros Hnone. by rewrite E, Hnone.
Qed.
End MoreOnConstruction.

Section FirstConstruction.
Context `{Cv2} `{Listing}.
Implicit Types (p : path) (s : fs) (f : string) (names : list string).

Lemma elem_of_filter_image_name names f :
  f ∈ List.filter is_image_name names ->
  f ∈ names /\ is_image_name f = true.
Proof.
  intros Hf%list_elem_of_In%filter_In.
  destruct Hf as [Hf ?]. split; [|done]. by apply list_elem_of_In.
Qed.

Context `{!ListingSpec}.

(** X1.  First construction over two classes that are ready, whatever the
    order in which the filesystem lists a directory: [__init__] returns a
    dataset whose AD paths, and then whose NC paths, are those of the
    image-named entries of the raw listing, under the same names, in some
    order.  The file of every sample is the one [cv2.imwrite] was given
    the processed form of the raw scan of that name, a 210 x 210 image;
    [dataset[idx]] opens that file and carries label 1 for AD and 0 for
    NC. *)
Theorem first_construction_serves_processed_scans root0 split tr adn ncn s :
  let self := ADNIDataset.fresh root0 split in
  ready_for (ADNIDataset.ad_dir self) (ADNIDataset.ad_processed_dir self) adn s ->
  ready_for (ADNIDataset.nc_dir self) (ADNIDataset.nc_processed_dir self) ncn s ->
  exists ds s',
    ADNIDataset.__init__ root0 split tr s = (Ok ds, s') /\
    ADNIDataset.ad_images ds ≡ₚ
      join (ADNIDataset.ad_processed_dir self) <$> List.filter is_image_name adn /\
    ADNIDataset.nc_images ds ≡ₚ
      join (ADNIDataset.nc_processed_dir self) <$> List.filter is_image_name ncn /\
    ADNIDataset.images ds = ADNIDataset.ad_images ds ++ ADNIDataset.nc_images ds /\
    forall idx, 0 <= idx < Z.of_nat (ADNIDataset.__len__ ds) ->
      let is_ad := idx <? Z.of_nat (length (ADNIDataset.ad_images ds)) in
      let raw_dir := if is_ad then ADNIDataset.ad_dir self
                     else ADNIDataset.nc_dir self in
      let processed_dir := if is_ad then ADNIDataset.ad_processed_dir self
                           else ADNIDataset.nc_processed_dir self in
      exists f scan img,
        f ∈ (if is_ad then adn else ncn) /\ is_image_name f = true /\
        s !! join raw_dir f = Some (File (Some scan)) /\
        processed_image scan = Ok img /\ square 210 img /\
        ADNIDataset.images ds !! Z.to_nat idx = Some (join processed_dir f) /\
        s' !! join processed_dir f = Some (File (Some img)) /\
        ADNIDataset.__getitem__ ds idx s' =
          match PIL.open_L (join processed_dir f) s' with
          | Ok x => Ok (default id tr x, if is_ad then 1 else 0)
          | Raise e => Raise e
          end.
Proof.
  intros self Had Hnc.
  destruct (preprocess_images_ok root0 split adn ncn s Had Hnc)
    as (s' & adl & ncl & Erun & Lad & Pad & Lnc & Pnc & Fad & Fnc).
  fold self in Erun, Lad, Lnc, Fad, Fnc.
  eexists _, s'. split.
  { unfold ADNIDataset.__init__, bind. fold self. rewrite Erun.
    unfold ADNIDataset.collect, bind, os.listdir, ret. rewrite Lad, Lnc. reflexivity. }
  cbn [ADNIDataset.images ADNIDataset.ad_images ADNIDataset.nc_images].
  split; [by rewrite Pad|]. split; [by rewrite Pnc|]. split; [done|].
  unfold ADNIDataset.__len__. cbn [ADNIDataset.images].
  intros idx Hidx. cbv zeta.
  rewrite length_app, !length_fmap in Hidx. rewrite length_fmap.
  set (i := Z.to_nat idx). assert (Ei : idx = Z.of_nat i) by (subst i; lia).
  destruct (idx <? Z.of_nat (length adl)) eqn:Hside.
  - apply Z.ltb_lt in Hside.
    destruct (lookup_lt_is_Some_2 adl i) as [f Hf]; [lia|].
    assert (Hfl : f ∈ List.filter is_image_name adn).
    { rewrite <-Pad. by eapply list_elem_of_lookup_2. }
    destruct (elem_of_filter_image_name adn f Hfl) as [Hin Hname].
    destruct Had as (_ & _ & _ & _ & Hgood).
    destruct (Hgood f Hin Hname) as [(scan & Hscan & _) _].
    destruct (Fad f scan Hin Hname Hscan) as (img & Eimg & Hsq & Hout).
    assert (Hp : ((join (ADNIDataset.ad_processed_dir self) <$> adl) ++
                  (join (ADNIDataset.nc_processed_dir self) <$> ncl)) !! i
                 = Some (join (ADNIDataset.ad_processed_dir self) f)).
    { rewrite lookup_app_l by (rewrite length_fmap; lia).
      by rewrite list_lookup_fmap, Hf. }
    exists f, scan, img. do 5 (split; [done|]). split; [exact Hp|]. split; [done|].
    rewrite Ei. apply getitem_at; [exact Hp|].
    cbn [ADNIDataset.labels]. rewrite length_fmap.
    rewrite lookup_app_l by (rewrite length_replicate; lia).
    apply lookup_replicate_2. lia.
  - apply Z.ltb_ge in Hside.
    destruct (lookup_lt_is_Some_2 ncl (i - length adl)) as [f Hf]; [lia|].
    assert (Hfl : f ∈ List.filter is_image_name ncn).
    { rewrite <-Pnc. by eapply list_elem_of_lookup_2. }
    destruct (elem_of_filter_image_name ncn f Hfl) as [Hin Hname].
    destruct Hnc as (_ & _ & _ & _ & Hgood).
    destruct (Hgood f Hin Hname) as [(scan & Hscan & _) _].
    destruct (Fnc f scan Hin Hname Hscan) as (img & Eimg & Hsq & Hout).
    assert (Hp : ((join (ADNIDataset.ad_processed_dir self) <$> adl) ++
                  (join (ADNIDataset.nc_processed_dir self) <$> ncl)) !! i
                 = Some (join (ADNIDataset.nc_processed_dir self) f)).
    { rewrite lookup_app_r by (rewrite length_fmap; lia).
      by rewrite length_fmap, list_lookup_fmap, Hf. }
    exists f, scan, img. do 5 (split; [done|]). split; [exact Hp|]. split; [done|].
    rewrite Ei. apply getitem_at; [exact Hp|].
    cbn [ADNIDataset.labels]. rewrite !length_fmap.
    rewrite lookup_app_r by (rewrite length_replicate; lia).
    rewrite length_replicate. apply lookup_replicate_2. lia.
Qed.
End FirstConstruction.

(** ** File names *)

Section Names.
Implicit Types (a b f : string).

Lemma list_ascii_app a b :
  list_ascii_of_string (String.append a b) =
  list_ascii_of_string a ++ list_ascii_of_string b.
Proof. induction a as [|c a IH]; simpl; [done|]. by rewrite IH. Qed.

Lemma list_ascii_lower a :
  list_ascii_of_string (Str.lower a) = Str.lower_ascii <$> list_ascii_of_string a.
Proof. induction a as [|c a IH]; simpl; [done|]. by rewrite IH. Qed.

Lemma list_ascii_inj a b :
  list_ascii_of_string a = list_ascii_of_string b -> a = b.
Proof.
  intros E%(f_equal string_of_list_ascii).
  by rewrite !string_of_list_ascii_of_string in E.
Qed.

Lemma endswith_spec a (suffixes : list string) :
  Str.endswith a suffixes = true <->
  exists pre suf, suf ∈ suffixes /\ a = String.append pre suf.
Proof.
  unfold Str.endswith. rewrite existsb_exists. split.
  - intros (suf & Hin%list_elem_of_In & [k Hk]%bool_decide_eq_true).
    exists (string_of_list_ascii k), suf. split; [done|].
    apply list_ascii_inj.
    by rewrite list_ascii_app, list_ascii_of_string_of_list_ascii.
  - intros (pre & suf & Hin & ->). exists suf. split; [by apply list_elem_of_In|].
    apply bool_decide_eq_true. exists (list_ascii_of_string pre).
    apply list_ascii_app.
Qed.
(** X6.  A name is taken for an image exactly when it is some text
    followed by an extension that reads .png, .jpg or .jpeg once its
    letters are put in lower case: the test looks at the end of the name
    only and ignores letter case. *)
Theorem image_name_iff_extension (f : string) :
  is_image_name f = true <->
  exists base ext, f = String.append base ext /\
    Str.lower ext ∈ ADNIDataset.image_extensions.
Proof.
  unfold is_image_name. rewrite endswith_spec. split.
  - intros (pre & suf & Hin & E).
    apply (f_equal list_ascii_of_string) in E.
    rewrite list_ascii_lower, list_ascii_app in E.
    set (n := length (list_ascii_of_string pre)).
    exists (string_of_list_ascii (take n (list_ascii_of_string f))),
           (string_of_list_ascii (drop n (list_ascii_of_string f))). split.
    + apply list_ascii_inj.
      by rewrite list_ascii_app, !list_ascii_of_string_of_list_ascii, take_drop.
    + replace (Str.lower _) with suf; [done|].
      apply list_ascii_inj.
      rewrite list_ascii_lower, list_ascii_of_string_of_list_ascii.
      rewrite fmap_drop, E. subst n. by rewrite drop_app_length.
  - intros (base & ext & -> & Hin).
    exists (Str.lower base), (Str.lower ext). split; [done|].
    apply list_ascii_inj.
    by rewrite list_ascii_lower, !list_ascii_app, fmap_app, !list_ascii_lower.
Qed.
End Names.

(** ** The crop *)

Section CropBounds.
Context `{Cv2}.
Implicit Types (img : image).

Lemma slice2_all img :
  rectangular img ->
  slice2 img 0 (0 + height img) 0 (0 + width img) = img.
Proof.
  unfold rectangular, slice2, slice, height. generalize (width img) as w.
  intros w Hrect. rewrite !Nat.add_0_l, !Nat.sub_0_r, drop_0, firstn_all.
  rewrite <-(list_fmap_id img) at 2. apply Forall_fmap_ext_1.
  eapply Forall_impl; [exact Hrect|]. intros row Hrow. simpl.
  rewrite drop_0, <-Hrow. apply firstn_all.
Qed.

(** X7.  The crop of a scan with some foreground lies inside the scan and
    has at least one row and one column; it is the whole scan exactly
    when the foreground reaches the first and the last row and the first
    and the last column. *)
Theorem crop_within_scan img :
  rectangular img ->
  (exists r c : nat, cv2.is_foreground img r c = true) ->
  (exists x y w h : nat,
     cv2.boundingRect (cv2.findNonZero (snd (cv2.threshold img))) = (x, y, w, h) /\
     ADNIDataset._crop_brain_region (Some img) = Ok (slice2 img y (y + h) x (x + w)) /\
     (1 <= w)%nat /\ (1 <= h)%nat /\
     (x + w <= width img)%nat /\ (y + h <= height img)%nat) /\
  (ADNIDataset._crop_brain_region (Some img) = Ok img <->
   (exists c, cv2.is_foreground img 0 c = true) /\
   (exists c, cv2.is_foreground img (height img - 1) c = true) /\
   (exists r, cv2.is_foreground img r 0 = true) /\
   (exists r, cv2.is_foreground img r (width img - 1) = true)).
Proof.
  intros Hrect Hfg.
  destruct (crop_brain_region_foreground img Hrect Hfg)
    as (x & y & w & h & cropped & Ebox & Hbox & Ecrop & Hh & Hw & _ & Hne).
  assert (Ecropped : cropped = slice2 img y (y + h) x (x + w)).
  { rewrite crop_brain_region_Some, Ebox in Ecrop. by injection Ecrop. }
  pose proof Hbox as (Hin & [r1 H1] & [r2 H2] & [c3 H3] & [c4 H4]).
  destruct (Hin _ _ H1) as [_ Hx1].
  destruct (Hin _ _ H3) as [Hy3 _].
  pose proof (is_foreground_inside _ _ _ Hrect H2) as [_ Hx2].
  pose proof (is_foreground_inside _ _ _ Hrect H4) as [Hy4 _].
  assert (Hbounds : (1 <= w)%nat /\ (1 <= h)%nat /\
                    (x + w <= width img)%nat /\ (y + h <= height img)%nat) by lia.
  split.
  { exists x, y, w, h. split; [done|]. split; [by rewrite Ecrop, Ecropped|done]. }
  split.
  - intros Eid. rewrite Ecrop in Eid. injection Eid as ->.
    assert (Ew : w = width img).
    { destruct img as [|row rows]; [simpl in Hh; lia|].
      apply Forall_cons in Hw as [Hrow _]. by rewrite <-Hrow. }
    assert (x = 0 /\ y = 0)%nat as [-> ->] by lia.
    rewrite Nat.add_0_l, Hh, <-Ew in *.
    split; [by exists c3|]. split; [by exists c4|]. split; by eauto.
  - intros ([c5 H5] & [c6 H6] & [r7 H7] & [r8 H8]).
    destruct (Hin _ _ H5) as [Hy5 _]. destruct (Hin _ _ H6) as [Hy6 _].
    destruct (Hin _ _ H7) as [_ Hx7]. destruct (Hin _ _ H8) as [_ Hx8].
    assert (x = 0 /\ y = 0 /\ w = width img /\ h = height img)%nat
      as (-> & -> & -> & ->) by lia.
    rewrite Ecrop, Ecropped. f_equal. by apply slice2_all.
Qed.
End CropBounds.

(** ** Views *)

Section Views.
Context {G : Type} `{Random G}.

Lemma swap_ok_perm {A} (x x' : list A) (i j : nat) :
  swap x i j = Ok x' -> x' ≡ₚ x.
Proof.
  unfold swap. destruct (x !! j) as [xj|] eqn:Ej; [|done].
  destruct (x !! i) as [xi|] eqn:Ei; [|done].
  intros [= <-]. by apply Permutation_insert_swap.
Qed.

(** Whatever the generator draws, a shuffle that returns has permuted
    its list. *)
Lemma shuffle_from_ok_perm {A} (i : nat) : forall (x x' : list A) g,
  fst (shuffle_from i x g) = Ok x' -> x' ≡ₚ x.
Proof.
  induction i as [|i IH]; intros x x' g.
  - simpl. by intros [= ->].
  - rewrite shuffle_from_S.
    destruct (swap x (S i) _) as [x1|e] eqn:Es; [|done].
    intros Hx'%IH. by rewrite Hx', (swap_ok_perm _ _ _ _ Es).
Qed.

Lemma getitem_in_range {A} (l : list A) idx :
  - Z.of_nat (length l) <= idx < Z.of_nat (length l) ->
  exists a, getitem l idx = Ok a /\ a ∈ l.
Proof.
  intros Hr. destruct (Z.ltb_spec idx 0).
  - rewrite getitem_negative by lia. rewrite getitem_nonneg by lia.
    destruct (lookup_lt_is_Some_2 l (Z.to_nat (idx + Z.of_nat (length l))))
      as [a Ha]; [lia|].
    rewrite Ha. exists a. split; [done|]. by eapply list_elem_of_lookup_2.
  - rewrite getitem_nonneg by lia.
    destruct (lookup_lt_is_Some_2 l (Z.to_nat idx)) as [a Ha]; [lia|].
    rewrite Ha. exists a. split; [done|]. by eapply list_elem_of_lookup_2.
Qed.

Lemma split_dataset_views ds r seed g tr va g' :
  split_dataset ds r seed g = (Ok (tr, va), g') ->
  dataset tr = ds /\ dataset va = ds /\
  indices tr ++ indices va ≡ₚ range (ADNIDataset.__len__ ds).
Proof.
  unfold split_dataset.
  destruct (split_point r _) as [k|e]; [|done].
  destruct (shuffle _ (seeded seed g)) as [[idx|e] g1] eqn:Es; [|done].
  intros [= <- <- <-]. simpl. split; [done|]. split; [done|].
  rewrite slice_to_from. unfold shuffle in Es.
  eapply shuffle_from_ok_perm. by rewrite Es.
Qed.

(** X8.  Access through a view returned by [split_dataset], whatever the
    generator has drawn: for a dataset with one label per path, every
    position of a view, counted from either end, reaches a sample of the
    dataset, so the access never raises [IndexError] and fails only as the
    read of that sample's file fails; a position outside the view raises
    [IndexError]. *)
Theorem view_access_reaches_dataset ds r seed g tr va g' :
  split_dataset ds r seed g = (Ok (tr, va), g') ->
  length (ADNIDataset.labels ds) = length (ADNIDataset.images ds) ->
  forall view idx s, view = tr \/ view = va ->
    (- Z.of_nat (Subset_len view) <= idx < Z.of_nat (Subset_len view) ->
     exists (i : nat) p (l : Z),
       (i < ADNIDataset.__len__ ds)%nat /\
       ADNIDataset.images ds !! i = Some p /\
       ADNIDataset.labels ds !! i = Some l /\
       Subset_getitem view idx s =
         match PIL.open_L p s with
         | Ok img => Ok (default id (ADNIDataset.transform ds) img, l)
         | Raise e => Raise e
         end) /\
    (idx < - Z.of_nat (Subset_len view) \/ Z.of_nat (Subset_len view) <= idx ->
     Subset_getitem view idx s = Raise IndexError).
Proof.
  intros (Etr & Eva & Hperm)%split_dataset_views Hlen view idx s Hview.
  assert (Hds : dataset view = ds) by (by destruct Hview as [->| ->]).
  assert (Hsub : forall i, i ∈ indices view -> (i < ADNIDataset.__len__ ds)%nat).
  { intros i Hi.
    assert (Hi' : i ∈ range (ADNIDataset.__len__ ds)).
    { rewrite <-Hperm. apply elem_of_app. destruct Hview as [->| ->]; auto. }
    apply list_elem_of_In, in_seq in Hi'. lia. }
  unfold Subset_getitem, Subset_len. split.
  - intros Hr. destruct (getitem_in_range (indices view) idx Hr) as (i & -> & Hi).
    apply Hsub in Hi. unfold ADNIDataset.__len__ in Hi.
    destruct (lookup_lt_is_Some_2 (ADNIDataset.images ds) i Hi) as [p Hp].
    destruct (lookup_lt_is_Some_2 (ADNIDataset.labels ds) i) as [l Hl]; [lia|].
    exists i, p, l. rewrite Hds. split; [done|]. split; [done|]. split; [done|].
    by apply getitem_at.
  - intros Hr. by rewrite getitem_out_of_range.
Qed.

(** X9.  An empty dataset: for every finite ratio, also one outside
    [0, 1], [split_dataset] returns two empty views; for an infinite ratio
    or a NaN it raises [ValueError]; and apart from the seeding the
    generator is left as it was. *)
Theorem split_of_empty_dataset ds r seed g :
  ADNIDataset.__len__ ds = 0%nat ->
  split_dataset ds r seed g =
    (if Float64.is_finite r
     then Ok ({| dataset := ds; indices := [] |}, {| dataset := ds; indices := [] |})
     else Raise ValueError,
     seeded seed g).
Proof.
  intros Hlen. unfold split_dataset. rewrite Hlen.
  assert (Ek : split_point r 0 = if Float64.is_finite r then Ok 0 else Raise ValueError).
  { unfold split_point. change (Float64.of_int (Z.of_nat 0)) with (Ok (S754_zero false)).
    by destruct r as [[]|[]| |[] m e]. }
  rewrite Ek. destruct (Float64.is_finite r); done.
Qed.
End Views.

Section Failures.
Context `{Cv2} `{Listing}.
Implicit Types (p inp out : path) (s : fs) (f : string) (names : list string).

(** X10.  [_process_image] ignores what [cv2.imwrite] returns: when the
    output file cannot be created, because its parent is not a directory
    or a directory has its name, the call on a processable scan returns
    normally and has written nothing. *)
Theorem process_image_unwritable_output inp out s (img : image) :
  s !! inp = Some (File (Some img)) ->
  processable img ->
  os.isdir (dirname out) s = false \/ os.isdir out s = true ->
  ADNIDataset._process_image inp out s = (Ok tt, s).
Proof.
  intros Hin Hgood Hout.
  destruct (processed_image_ok img Hgood) as (img' & Eimg & _ & Hne).
  unfold processed_image in Eimg.
  destruct (ADNIDataset._crop_brain_region (Some img)) as [cropped|] eqn:Ecrop; [|done].
  unfold ADNIDataset._process_image, bind, cv2_io.imread, lift, cv2_io.imwrite, ret.
  rewrite Hin, Ecrop, Eimg, Hne. unfold os.isdir in Hout.
  destruct (s !! dirname out) as [[names|?]|]; destruct (s !! out) as [[?|?]|];
    try done; by destruct Hout.
Qed.

Lemma preprocess_block_no_input inp out s e :
  os.exists_ out s = false -> inp <> out -> inp <> dirname out ->
  fst (os.listdir inp s) = Raise e ->
  exists s1,
    os.makedirs out s = (Ok tt, s1) /\
    s1 = <[out := Dir []]> (os.link out s) /\
    ADNIDataset.preprocess_block inp out s = (Raise e, s1).
Proof.
  intros Hex Hio Hid Hno.
  destruct (preprocess_block_create inp out s Hex) as (s1 & Em & _ & ->).
  assert (Es1 : s1 = <[out := Dir []]> (os.link out s)).
  { unfold os.makedirs in Em. rewrite Hex in Em. by injection Em as <-. }
  exists s1. split; [done|]. split; [done|].
  rewrite process_directory_entries.
  assert (Hsame : s1 !! inp = s !! inp).
  { rewrite Es1, lookup_insert_ne by done. by apply link_other. }
  rewrite Hsame. unfold os.listdir in Hno.
  destruct (s !! inp) as [[names|c]|]; simpl in Hno; [done|by injection Hno as ->..].
Qed.

Context `{!ListingSpec}.

(** X11.  Where the directory of the split exists, a raw class directory
    that cannot be listed, because it is missing or is a file, is found
    out only after the output directory of its class has been created:
    [__init__] raises the error of [os.listdir] ([FileNotFoundError] or
    [NotADirectoryError]) and leaves an empty processed directory for that
    class.  For AD the NC class has not been started; for NC the AD class
    has been processed in full before. *)
Theorem missing_raw_directory root0 split tr adn s e :
  let self := ADNIDataset.fresh root0 split in
  (os.isdir (ADNIDataset.root self) s = true ->
   os.exists_ (ADNIDataset.ad_processed_dir self) s = false ->
   fst (os.listdir (ADNIDataset.ad_dir self) s) = Raise e ->
   exists s1,
     ADNIDataset.__init__ root0 split tr s = (Raise e, s1) /\
     os.makedirs (ADNIDataset.ad_processed_dir self) s = (Ok tt, s1) /\
     s1 !! ADNIDataset.ad_processed_dir self = Some (Dir []) /\
     s1 !! ADNIDataset.nc_processed_dir self = s !! ADNIDataset.nc_processed_dir self) /\
  (ready_for (ADNIDataset.ad_dir self) (ADNIDataset.ad_processed_dir self) adn s ->
   os.exists_ (ADNIDataset.nc_processed_dir self) s = false ->
   fst (os.listdir (ADNIDataset.nc_dir self) s) = Raise e ->
   exists s1 listing,
     ADNIDataset.__init__ root0 split tr s = (Raise e, s1) /\
     s1 !! ADNIDataset.ad_processed_dir self = Some (Dir listing) /\
     listing ≡ₚ List.filter is_image_name adn /\
     s1 !! ADNIDataset.nc_processed_dir self = Some (Dir [])).
Proof.
  intros self. simpl. set (parent := join root0 split).
  assert (Hlen' : forall a b f, join parent a <> join (join parent b) f).
  { intros a b f E%(f_equal length). rewrite !length_join in E. lia. }
  split.
  - intros _ Hex Hno.
    destruct (preprocess_block_no_input (join parent "AD") (join parent "AD_processed") s e)
      as (s1 & Em & Es1 & Erun); [done| | |done|].
    { by intros [_ ?]%join_inj. }
    { rewrite dirname_join. apply join_ne_self. }
    exists s1. split.
    { unfold ADNIDataset.__init__, ADNIDataset.preprocess_images, bind. simpl.
      fold parent. by rewrite Erun. }
    split; [done|]. rewrite Es1. split; [by rewrite lookup_insert_eq|].
    rewrite lookup_insert_ne by (by intros [_ ?]%join_inj).
    apply link_other. rewrite dirname_join. apply join_ne_self.
  - intros Had Hex Hno.
    destruct (preprocess_block_ok parent "AD" "AD_processed" adn s ltac:(done) Had)
      as (s0 & listing & E0 & L0 & P0 & _ & _ & K0).
    assert (Hnc0 : forall p, p = join parent "NC" \/ p = join parent "NC_processed" ->
                             s0 !! p = s !! p).
    { intros p Hp. apply K0.
      - destruct Hp as [->| ->]; apply join_ne_self.
      - destruct Hp as [->| ->]; by intros [_ ?]%join_inj.
      - intros f _ _. destruct Hp as [->| ->]; apply Hlen'. }
    destruct (preprocess_block_no_input (join parent "NC") (join parent "NC_processed") s0 e)
      as (s1 & Em & Es1 & Erun).
    { apply exists_false. rewrite Hnc0 by auto. by apply exists_false. }
    { by intros [_ ?]%join_inj. }
    { rewrite dirname_join. apply join_ne_self. }
    { unfold os.listdir in *. rewrite Hnc0 by auto.
      by destruct (s !! join parent "NC") as [[?|?]|]. }
    exists s1, listing. split.
    { unfold ADNIDataset.__init__, ADNIDataset.preprocess_images, bind. simpl.
      fold parent. by rewrite E0, Erun. }
    rewrite Es1. split; [|split; [done|by rewrite lookup_insert_eq]].
    rewrite lookup_insert_ne by (by intros [_ ?]%join_inj).
    rewrite link_other; [done|]. rewrite dirname_join. apply join_ne_self.
Qed.
End Failures.

(** *** Runs on concrete inputs *)

Lemma creation_order_spec : @ListingSpec Sample.creation_order.
Proof. intros names name. reflexivity. Qed.

Lemma newest_first_spec : @ListingSpec Sample.newest_first.
Proof. intros names name. simpl. by rewrite Permutation_app_comm. Qed.

Section FurtherRuns.
#[local] Existing Instance Sample.creation_order.
#[local] Existing Instance creation_order_spec.

Lemma first_construction_serves_processed_scans_witness :
  ready_for (H := Sample.nearest) Sample.AD Sample.AD_processed
    ["a.png"; "notes.txt"; "B.JPG"]%string Sample.raw /\
  ready_for (H := Sample.nearest) Sample.NC Sample.NC_processed
    ["c.jpeg"]%string Sample.raw /\
  exists ds s',
    ADNIDataset.__init__ (H := Sample.nearest) Sample.data "train" None Sample.raw
      = (Ok ds, s') /\
    ADNIDataset.ad_images ds ≡ₚ
      [join Sample.AD_processed "a.png"; join Sample.AD_processed "B.JPG"] /\
    ADNIDataset.nc_images ds ≡ₚ [join Sample.NC_processed "c.jpeg"] /\
    exists img,
      square 210 img /\
      s' !! join Sample.NC_processed "c.jpeg" = Some (File (Some img)) /\
      ADNIDataset.__getitem__ ds 2 s' =
        match PIL.open_L (join Sample.NC_processed "c.jpeg") s' with
        | Ok x => Ok (x, 0)
        | Raise e => Raise e
        end.
Proof.
  assert (ready_for (H := Sample.nearest) Sample.AD Sample.AD_processed
            ["a.png"; "notes.txt"; "B.JPG"]%string Sample.raw) as Had.
  { split; [vm_compute; reflexivity|]. split; [vm_compute; reflexivity|].
    split; [apply (bool_decide_unpack _); vm_compute; exact I|].
    split; [vm_compute; reflexivity|].
    intros f Hf Hname.
    apply elem_of_cons in Hf as [->|Hf]; [|apply elem_of_cons in Hf as [->|Hf];
      [|apply elem_of_cons in Hf as [->|Hf]; [|apply elem_of_nil in Hf; destruct Hf]]].
    - split; [|vm_compute; reflexivity].
      exists Sample.bright. split; [vm_compute; reflexivity|].
      split; [repeat constructor|]. exists 1%nat, 1%nat. vm_compute. reflexivity.
    - vm_compute in Hname. discriminate.
    - split; [|vm_compute; reflexivity].
      exists [[3]]. split; [vm_compute; reflexivity|].
      split; [repeat constructor|]. exists 0%nat, 0%nat. vm_compute. reflexivity. }
  assert (ready_for (H := Sample.nearest) Sample.NC Sample.NC_processed
            ["c.jpeg"]%string Sample.raw) as Hnc.
  { split; [vm_compute; reflexivity|]. split; [vm_compute; reflexivity|].
    split; [apply (bool_decide_unpack _); vm_compute; exact I|].
    split; [vm_compute; reflexivity|].
    intros f Hf Hname.
    apply elem_of_cons in Hf as [->|Hf]; [|apply elem_of_nil in Hf; destruct Hf].
    split; [|vm_compute; reflexivity].
    exists [[1; 2]; [3; 4]]. split; [vm_compute; reflexivity|].
    split; [repeat constructor|]. exists 0%nat, 0%nat. vm_compute. reflexivity. }
  split; [exact Had|]. split; [exact Hnc|].
  destruct (@first_construction_serves_processed_scans Sample.nearest _ _
              Sample.data "train" None _ _ Sample.raw Had Hnc)
    as (ds & s' & E & Ea & En & Ei & Hget).
  exists ds, s'. split; [exact E|]. split; [exact Ea|]. split; [exact En|].
  assert (length (ADNIDataset.ad_images ds) = 2%nat) as La
    by (rewrite Ea; reflexivity).
  assert (length (ADNIDataset.nc_images ds) = 1%nat) as Ln
    by (rewrite En; reflexivity).
  destruct (Hget 2) as (f & scan & img & Hf & _ & _ & _ & Hsq & _ & Hfile & Eg).
  { unfold ADNIDataset.__len__. rewrite Ei, length_app, La, Ln. vm_compute.
    split; [discriminate|reflexivity]. }
  rewrite La in Hf, Hfile, Eg. simpl in Hf.
  apply elem_of_cons in Hf as [->|Hf]; [|apply elem_of_nil in Hf; destruct Hf].
  exists img. split; [exact Hsq|]. split; [exact Hfile|exact Eg].
Defined.

Lemma construction_leaves_raw_data_witness :
  os.isdir Sample.train Sample.raw = true /\
  snd (ADNIDataset.__init__ (H := Sample.nearest) Sample.data "train" None Sample.raw)
    !! join Sample.AD "a.png" = Sample.raw !! join Sample.AD "a.png".
Proof.
  assert (os.isdir Sample.train Sample.raw = true) as Hdir by (vm_compute; reflexivity).
  split; [exact Hdir|].
  apply (proj2 (proj2 (@construction_leaves_raw_data Sample.nearest _
                         Sample.data "train" None Sample.raw Hdir))).
  right. right. left. exists "a.png"%string. reflexivity.
Defined.

Lemma construction_is_idempotent_witness :
  fst (ADNIDataset.__init__ (H := Sample.nearest) Sample.data "train" None Sample.raw)
    = Ok (Sample.sample_dataset ["a.png"; "B.JPG"]%string ["c.jpeg"]%string) /\
  ADNIDataset.__init__ (H := Sample.nearest) Sample.data "train" None
    (snd (ADNIDataset.__init__ (H := Sample.nearest) Sample.data "train" None Sample.raw))
  = (Ok (Sample.sample_dataset ["a.png"; "B.JPG"]%string ["c.jpeg"]%string),
     snd (ADNIDataset.__init__ (H := Sample.nearest) Sample.data "train" None Sample.raw)).
Proof.
  assert (fst (ADNIDataset.__init__ (H := Sample.nearest) Sample.data "train" None
                 Sample.raw)
          = Ok (Sample.sample_dataset ["a.png"; "B.JPG"]%string ["c.jpeg"]%string))
    as Hinit by (vm_compute; reflexivity).
  split; [exact Hinit|].
  exact (proj1 (@construction_is_idempotent Sample.nearest _ _ _ _ _ _ _
                  (run_eq _ _ Hinit))).
Defined.

Lemma process_directory_stops_at_first_failure_witness :
  ADNIDataset._process_directory (H := Sample.nearest) Sample.AD Sample.AD_processed
    (<[Sample.AD_processed := Dir []]> Sample.corrupt)
  = (Raise cv2_error,
     snd (for_each ["a.png"%string]
            (process_entry (H := Sample.nearest) Sample.AD Sample.AD_processed)
            (<[Sample.AD_processed := Dir []]> Sample.corrupt))).
Proof.
  assert (fst (for_each ["a.png"%string]
                 (process_entry (H := Sample.nearest) Sample.AD Sample.AD_processed)
                 (<[Sample.AD_processed := Dir []]> Sample.corrupt)) = Ok tt)
    as Hfirst by (vm_compute; reflexivity).
  apply (@process_directory_stops_at_first_failure Sample.nearest _
           Sample.AD Sample.AD_processed _ ["a.png"%string] "bad.png" ["c.png"%string] _).
  - vm_compute. reflexivity.
  - exact (run_eq _ _ Hfirst).
  - vm_compute. reflexivity.
  - vm_compute. reflexivity.
Defined.

Lemma process_directory_skips_other_files_witness :
  ADNIDataset._process_directory (H := Sample.nearest) Sample.AD Sample.AD_processed
    Sample.ready
  = for_each ["a.png"; "B.JPG"]%string
      (fun f => ADNIDataset._process_image (H := Sample.nearest)
                  (join Sample.AD f) (join Sample.AD_processed f))
      Sample.ready.
Proof.
  assert (Sample.ready !! Sample.AD = Some (Dir ["a.png"; "notes.txt"; "B.JPG"]%string))
    as Hin by (vm_compute; reflexivity).
  exact (proj1 (@process_directory_skips_other_files Sample.nearest _
                  Sample.AD Sample.AD_processed Sample.ready _ Hin)).
Defined.

Lemma image_name_iff_extension_witness : is_image_name "B.JPG" = true.
Proof.
  apply (proj2 (image_name_iff_extension "B.JPG")).
  exists "B"%string, ".JPG"%string. split; [reflexivity|].
  apply (bool_decide_unpack _). vm_compute. exact I.
Defined.

Lemma crop_within_scan_witness :
  rectangular Sample.bright /\
  cv2.is_foreground (H := Sample.nearest) Sample.bright 1 1 = true /\
  exists x y w h : nat,
    cv2.boundingRect (cv2.findNonZero (snd (cv2.threshold (H := Sample.nearest)
                                              Sample.bright))) = (x, y, w, h) /\
    ADNIDataset._crop_brain_region (H := Sample.nearest) (Some Sample.bright)
      = Ok (slice2 Sample.bright y (y + h) x (x + w)) /\
    (1 <= w)%nat /\ (1 <= h)%nat /\
    (x + w <= width Sample.bright)%nat /\ (y + h <= height Sample.bright)%nat.
Proof.
  assert (rectangular Sample.bright) as Hrect by (repeat constructor).
  assert (cv2.is_foreground (H := Sample.nearest) Sample.bright 1 1 = true)
    as Hfg by (vm_compute; reflexivity).
  split; [exact Hrect|]. split; [exact Hfg|].
  exact (proj1 (@crop_within_scan Sample.nearest Sample.bright Hrect
                  (ex_intro _ 1%nat (ex_intro _ 1%nat Hfg)))).
Defined.

Lemma view_access_reaches_dataset_witness :
  fst (split_dataset Sample.two Sample.ratio_half (Some 42) (0 : Z))
    = Ok ({| dataset := Sample.two; indices := [0%nat] |},
          {| dataset := Sample.two; indices := [1%nat] |}) /\
  exists (i : nat) p (l : Z),
    (i < ADNIDataset.__len__ Sample.two)%nat /\
    ADNIDataset.images Sample.two !! i = Some p /\
    ADNIDataset.labels Sample.two !! i = Some l /\
    Subset_getitem {| dataset := Sample.two; indices := [1%nat] |} (-1) Sample.processed =
      match PIL.open_L p Sample.processed with
      | Ok img => Ok (default id (ADNIDataset.transform Sample.two) img, l)
      | Raise e => Raise e
      end.
Proof.
  assert (fst (split_dataset Sample.two Sample.ratio_half (Some 42) (0 : Z))
          = Ok ({| dataset := Sample.two; indices := [0%nat] |},
                {| dataset := Sample.two; indices := [1%nat] |}))
    as Hsplit by (vm_compute; reflexivity).
  split; [exact Hsplit|].
  apply (proj1 (@view_access_reaches_dataset Z LCG.lcg_random
                  Sample.two Sample.ratio_half (Some 42) 0 _ _ _
                  (run_eq _ _ Hsplit) eq_refl
                  {| dataset := Sample.two; indices := [1%nat] |} (-1) Sample.processed
                  (or_intror eq_refl))).
  vm_compute. split; [discriminate|reflexivity].
Defined.

Lemma split_of_empty_dataset_witness :
  split_dataset (Sample.sample_dataset [] []) Sample.ratio_2 None (0 : Z)
  = (Ok ({| dataset := Sample.sample_dataset [] []; indices := [] |},
         {| dataset := Sample.sample_dataset [] []; indices := [] |}), 0).
Proof.
  exact (@split_of_empty_dataset Z LCG.lcg_random (Sample.sample_dataset [] [])
           Sample.ratio_2 None 0 eq_refl).
Defined.

Lemma process_image_unwritable_output_witness :
  os.isdir (dirname (join Sample.AD_processed "a.png")) Sample.raw = false /\
  ADNIDataset._process_image (H := Sample.nearest)
    (join Sample.AD "a.png") (join Sample.AD_processed "a.png") Sample.raw
  = (Ok tt, Sample.raw).
Proof.
  assert (os.isdir (dirname (join Sample.AD_processed "a.png")) Sample.raw = false)
    as Hdir by (vm_compute; reflexivity).
  split; [exact Hdir|].
  apply (@process_image_unwritable_output Sample.nearest _ _ _ _ Sample.bright).
  - vm_compute. reflexivity.
  - split; [repeat constructor|]. exists 1%nat, 1%nat. vm_compute. reflexivity.
  - left. exact Hdir.
Defined.

Lemma missing_raw_directory_witness :
  os.isdir Sample.train Sample.no_AD = true /\
  os.exists_ Sample.AD_processed Sample.no_AD = false /\
  fst (os.listdir Sample.AD Sample.no_AD) = Raise FileNotFoundError /\
  exists s1,
    ADNIDataset.__init__ (H := Sample.nearest) Sample.data "train" None Sample.no_AD
      = (Raise FileNotFoundError, s1) /\
    s1 !! Sample.AD_processed = Some (Dir []).
Proof.
  assert (os.isdir Sample.train Sample.no_AD = true)
    as Hdir by (vm_compute; reflexivity).
  assert (os.exists_ Sample.AD_processed Sample.no_AD = false)
    as Hex by (vm_compute; reflexivity).
  assert (fst (os.listdir Sample.AD Sample.no_AD) = Raise FileNotFoundError)
    as Hno by (vm_compute; reflexivity).
  split; [exact Hdir|]. split; [exact Hex|]. split; [exact Hno|].
  destruct (proj1 (@missing_raw_directory Sample.nearest _ _ Sample.data "train" None []
                     Sample.no_AD FileNotFoundError) Hdir Hex Hno)
    as (s1 & E & _ & Hd & _).
  exists s1. split; [exact E|exact Hd].
Defined.

End FurtherRuns.
